(** * Backtest statistics and data fetching: a shallow embedding

    The repository has two functions:
    - [backtest_strategy] (src/function/backtest.py), which builds a pandas
      table from a signal series and a returns series and derives strategy
      returns, cumulative returns, drawdown and summary statistics;
    - [fetch_stock_data] (src/function/fetch_stock_data.py), which wraps one
      call to the market-data provider in a try/except.

    Numbers.  The program computes on IEEE binary64 values.  The embedding
    keeps the special value NaN, on which the program depends (the shifted
    column, [fillna], the [std_return != 0] guard, [np.nan]), and idealises
    every finite value as an exact rational: rounding, overflow and the
    infinities are not modelled.  The only irrational step, the square root
    in [std] and in [np.sqrt(252)], is taken in the real numbers.  The
    statements proved on this embedding name the operations the code
    performs, or are about zeros, signs and orderings that rounding keeps.

    Module [Binary64] embeds [backtest_strategy] a second time, operation
    for operation, on binary64 values themselves; it decides the statements
    about the values that a run returns. *)

From Stdlib Require Import PrimFloat.
From Stdlib Require Import List ZArith QArith Qminmax Qreals Reals Lra Lia.
From Stdlib Require Import Bool String Permutation Setoid Morphisms Psatz.
Import ListNotations.

Set Warnings "-inexact-float".

Open Scope Q_scope.

(** ** Cells: a float is NaN or a number *)

Inductive cell (A : Type) : Type :=
| NaN
| Num (a : A).

Arguments NaN {A}.
Arguments Num {A} a.

Definition lift2 {A : Type} (f : A -> A -> A) (x y : cell A) : cell A :=
  match x, y with
  | Num a, Num b => Num (f a b)
  | _, _ => NaN
  end.

Definition is_nan {A : Type} (x : cell A) : bool :=
  match x with NaN => true | Num _ => false end.

(** Equality of cells up to the value of the fraction. *)
Definition ceq (x y : cell Q) : Prop :=
  match x, y with
  | NaN, NaN => True
  | Num a, Num b => a == b
  | _, _ => False
  end.

(** Python exceptions that the two functions can meet. *)
Inductive exc : Type :=
| ValueError
| IndexError.

Inductive result (A : Type) : Type :=
| Ok (a : A)
| Raise (e : exc).

Arguments Ok {A} a.
Arguments Raise {A} e.

Definition bind {A B : Type} (m : result A) (k : A -> result B) : result B :=
  match m with
  | Ok a => k a
  | Raise e => Raise e
  end.

Notation "x <- m ;; k" := (bind m (fun x => k))
  (at level 61, m at next level, right associativity).

(** ** The pandas and numpy operations the program calls *)

Module Pandas.

Definition column := list (cell Q).

Definition add : cell Q -> cell Q -> cell Q := lift2 Qplus.
Definition sub : cell Q -> cell Q -> cell Q := lift2 Qminus.
Definition mul : cell Q -> cell Q -> cell Q := lift2 Qmult.

(** Float division.  A zero divisor gives an IEEE special value (an
    infinity, or NaN for 0/0); the infinities are not modelled and the case
    is mapped to NaN.  Lemma [cummax_ne_0] below shows that the divisor of
    the drawdown is never zero, and the Sharpe ratio is guarded. *)
Definition div (x y : cell Q) : cell Q :=
  match x, y with
  | Num a, Num b => if Qeq_bool b 0 then NaN else Num (a / b)
  | _, _ => NaN
  end.

(** Element-wise operation of two columns of one table (same index). *)
Definition zip_with (f : cell Q -> cell Q -> cell Q) (xs ys : column) : column :=
  map (fun p => f (fst p) (snd p)) (combine xs ys).

(** [s.shift(1)]: every value moves one row down, row 0 becomes NaN. *)
Definition shift1 (col : column) : column :=
  match col with
  | [] => []
  | _ :: _ => NaN :: removelast col
  end.

(** [s.fillna(v)]. *)
Definition fillna (v : Q) (col : column) : column :=
  map (fun x => match x with NaN => Num v | Num a => Num a end) col.

(** [1 + s]. *)
Definition radd (c : Q) (col : column) : column :=
  map (fun x => add (Num c) x) col.

(** Cumulative operations skip NaN: a NaN row stays NaN and does not
    enter the running value; the first number starts it. *)
Fixpoint cum_from (f : Q -> Q -> Q) (acc : option Q) (col : column) : column :=
  match col with
  | [] => []
  | NaN :: t => NaN :: cum_from f acc t
  | Num x :: t =>
      let a := match acc with None => x | Some a => f a x end in
      Num a :: cum_from f (Some a) t
  end.

Definition cumprod : column -> column := cum_from Qmult None.
Definition cummax : column -> column := cum_from Qmax None.

(** Reductions skip NaN as well ([skipna=True]). *)
Fixpoint dropna (col : column) : list Q :=
  match col with
  | [] => []
  | NaN :: t => dropna t
  | Num x :: t => x :: dropna t
  end.

Definition total (xs : list Q) : Q := fold_left Qplus xs 0.

(** [s.sum()]: 0 on an empty column. *)
Definition sum (col : column) : Q := total (dropna col).

Definition count (col : column) : nat := List.length (dropna col).

Definition Qnat (n : nat) : Q := inject_Z (Z.of_nat n).

(** [s.mean()]: NaN when there is no value. *)
Definition mean (col : column) : cell Q :=
  match count col with
  | O => NaN
  | S _ => Num (sum col / Qnat (count col))
  end.

(** [s.var()] with the default [ddof=1]: NaN with fewer than two values. *)
Definition var (col : column) : cell Q :=
  match count col with
  | O | S O => NaN
  | S (S _) =>
      let avg := sum col / Qnat (count col) in
      let sqr := total (map (fun x => (avg - x) * (avg - x)) (dropna col)) in
      Num (sqr / Qnat (count col - 1))
  end.

(** [s.std()] is the square root of [s.var()]. *)
Definition std (col : column) : cell R :=
  match var col with
  | NaN => NaN
  | Num v => Num (sqrt (Q2R v))
  end.

(** [s.min()]: NaN when there is no value. *)
Definition min (col : column) : cell Q :=
  match dropna col with
  | [] => NaN
  | x :: t => Num (fold_left Qmin t x)
  end.

(** [s.iloc[-1]]: the last row; IndexError on an empty column. *)
Definition iloc_last (col : column) : result (cell Q) :=
  match col with
  | [] => Raise IndexError
  | _ :: _ => Ok (last col NaN)
  end.

(** What the caller may pass for a column: a Python list, or a Series
    with the default index 0..n-1. *)
Inductive arraylike : Type :=
| PyList (xs : list Q)
| Series (xs : list Q).

Definition values (a : arraylike) : list Q :=
  match a with PyList xs | Series xs => xs end.

(** Reindexing a Series on the rows 0..n-1: missing rows are NaN. *)
Fixpoint reindex (n : nat) (xs : list Q) : column :=
  match n with
  | O => []
  | S n' =>
      match xs with
      | [] => NaN :: reindex n' []
      | x :: t => Num x :: reindex n' t
      end
  end.

(** [pd.DataFrame({'signals': a, 'returns': b})].  The index of the table
    is the union of the indexes of the Series among the two; a list must
    have exactly the length of the index, and two lists the same length;
    otherwise the constructor raises ValueError. *)
Definition DataFrame (a b : arraylike) : result (column * column) :=
  match a, b with
  | PyList xs, PyList ys =>
      if Nat.eqb (List.length xs) (List.length ys)
      then Ok (map Num xs, map Num ys)
      else Raise ValueError
  | Series xs, Series ys =>
      let n := Nat.max (List.length xs) (List.length ys) in
      Ok (reindex n xs, reindex n ys)
  | Series xs, PyList ys =>
      if Nat.eqb (List.length ys) (List.length xs)
      then Ok (map Num xs, map Num ys)
      else Raise ValueError
  | PyList xs, Series ys =>
      if Nat.eqb (List.length xs) (List.length ys)
      then Ok (map Num xs, map Num ys)
      else Raise ValueError
  end.

End Pandas.

(** ** src/function/backtest.py *)

Module Backtest.

Import Pandas.

(** The table [df] once both derived columns are assigned. *)
Record frame : Type := {
  df_signals : column;
  df_returns : column;
  df_strategy_returns : column;
  df_cumulative_returns : column
}.

(** The dictionary that [backtest_strategy] returns. *)
Record Results : Type := {
  Total_PnL : Q;
  Sharpe_Ratio : cell R;
  Max_Drawdown : cell Q;
  Cumulative_Return : cell Q;
  Performance_DataFrame : frame
}.

(** A line chart drawn by [plot_performance]. *)
Record chart : Type := {
  chart_title : string;
  chart_line : column
}.

(** Lines 25-26: the signal of the previous row times the return of this
    row, NaN replaced by 0.  The in-place [fillna] on the selected column
    updates the column of the table, as the code intends (pandas without
    copy-on-write). *)
Definition strategy_returns (sig ret : column) : column :=
  fillna 0 (zip_with mul (shift1 sig) ret).

(** Line 29. *)
Definition cumulative_returns (sr : column) : column :=
  cumprod (radd 1 sr).

(** Lines 41-42. *)
Definition drawdown (cr : column) : column :=
  let cumulative_max := cummax cr in
  zip_with div (zip_with sub cr cumulative_max) cumulative_max.

(** [std_return != 0]: NaN differs from every number. *)
Definition ne0 (x : cell R) : bool :=
  match x with
  | NaN => true
  | Num r => if Req_dec_T r 0 then false else true
  end.

Definition to_R (x : cell Q) : cell R :=
  match x with NaN => NaN | Num q => Num (Q2R q) end.

Definition Rdiv_cell (x y : cell R) : cell R :=
  match x, y with
  | Num a, Num b => if Req_dec_T b 0 then NaN else Num (a / b)%R
  | _, _ => NaN
  end.

(** Line 38. *)
Definition sharpe (mean_return : cell Q) (std_return : cell R) : cell R :=
  if ne0 std_return
  then lift2 Rmult (Rdiv_cell (to_R mean_return) std_return) (Num (sqrt 252))
  else NaN.

(** Lines 63-88: two charts, nothing returned. *)
Definition plot_performance (df : frame) (dd : column) : list chart :=
  [ {| chart_title := "Cumulative Returns"; chart_line := df_cumulative_returns df |};
    {| chart_title := "Drawdown"; chart_line := dd |} ].

(** Lines 5-61.  The result pairs the returned dictionary with the charts
    that were drawn. *)
Definition backtest_strategy (signals returns : arraylike) (plot_charts : bool)
  : result (Results * list chart) :=
  cols <- DataFrame signals returns ;;
  let sr := strategy_returns (fst cols) (snd cols) in
  let df := {| df_signals := fst cols;
               df_returns := snd cols;
               df_strategy_returns := sr;
               df_cumulative_returns := cumulative_returns sr |} in
  let total_pnl := sum (df_strategy_returns df) in
  let mean_return := mean (df_strategy_returns df) in
  let std_return := std (df_strategy_returns df) in
  let sharpe_ratio := sharpe mean_return std_return in
  let dd := drawdown (df_cumulative_returns df) in
  let max_drawdown := min dd in
  last_row <- iloc_last (df_cumulative_returns df) ;;
  let cumulative_return := sub last_row (Num 1) in
  let results := {| Total_PnL := total_pnl;
                    Sharpe_Ratio := sharpe_ratio;
                    Max_Drawdown := max_drawdown;
                    Cumulative_Return := cumulative_return;
                    Performance_DataFrame := df |} in
  Ok (results, if plot_charts then plot_performance df dd else []).

End Backtest.

(** ** src/function/fetch_stock_data.py *)

Module Fetch.

(** A Python exception object: [except Exception] does not catch the
    exceptions that derive from BaseException only (KeyboardInterrupt,
    SystemExit). *)
Record pyexn : Type := {
  is_Exception : bool;
  exn_str : string
}.

(** One row of the provider's table: date, open, high, low, close, volume. *)
Definition row : Type := (string * Q * Q * Q * Q * Q)%type.

(** What the call [yf.download(...)] does: it returns a table or raises. *)
Inductive download : Type :=
| Returns (data : list row)
| Raises (e : pyexn).

(** How a call of [fetch_stock_data] ends. *)
Inductive outcome : Type :=
| Return (data : option (list row))
| Propagate (e : pyexn).

(** Lines 3-22.  The provider is the environment: its answer to the single
    request is a parameter.  The result pairs the lines printed with the
    way the call ends. *)
Definition fetch_stock_data (yf_download : string -> string -> string -> download)
    (ticker start_date end_date : string) : list string * outcome :=
  match yf_download ticker start_date end_date with
  | Returns data =>
      if Nat.eqb (List.length data) 0
      then ([("No data for " ++ ticker)%string], Return None)
      else ([], Return (Some data))
  | Raises e =>
      if is_Exception e
      then ([("Error fetching data for " ++ ticker ++ ": " ++ exn_str e)%string],
            Return None)
      else ([], Propagate e)
  end.

End Fetch.

(** ** src/function/backtest.py on binary64 values *)

Module Binary64.

Definition column := list float.

(** What the caller may pass for a column. *)
Inductive arraylike : Type :=
| PyList (xs : list float)
| Series (xs : list float).

Definition values (a : arraylike) : list float :=
  match a with PyList xs | Series xs => xs end.

Definition zip_with (f : float -> float -> float) (xs ys : column) : column :=
  map (fun p => f (fst p) (snd p)) (combine xs ys).

(** [s.shift(1)]. *)
Definition shift1 (col : column) : column :=
  match col with
  | [] => []
  | _ :: _ => PrimFloat.nan :: removelast col
  end.

(** [s.fillna(v)]. *)
Definition fillna (v : float) (col : column) : column :=
  map (fun x => if PrimFloat.is_nan x then v else x) col.

(** [1 + s]. *)
Definition radd (c : float) (col : column) : column :=
  map (fun x => PrimFloat.add c x) col.

(** Cumulative operations: a NaN row stays NaN and does not enter the
    running value; the first number starts it. *)
Fixpoint cum_from (f : float -> float -> float) (acc : option float) (col : column)
  : column :=
  match col with
  | [] => []
  | x :: t =>
      if PrimFloat.is_nan x then x :: cum_from f acc t
      else
        let a := match acc with None => x | Some a => f a x end in
        a :: cum_from f (Some a) t
  end.

Definition fmax (a x : float) : float := if PrimFloat.ltb a x then x else a.
Definition fmin (a x : float) : float := if PrimFloat.ltb x a then x else a.

Definition cumprod : column -> column := cum_from PrimFloat.mul None.
Definition cummax : column -> column := cum_from fmax None.

Definition dropna (col : column) : list float :=
  filter (fun x => negb (PrimFloat.is_nan x)) col.

(** The values are added from left to right, starting from 0: what numpy
    does on fewer than eight values, and bottleneck on any number. *)
Definition total (xs : list float) : float := fold_left PrimFloat.add xs 0%float.

Definition sum (col : column) : float := total (dropna col).

Definition count (col : column) : nat := List.length (dropna col).

(** The count as a float (exact below 2^53). *)
Fixpoint of_nat (n : nat) : float :=
  match n with
  | O => 0%float
  | S m => PrimFloat.add (of_nat m) 1%float
  end.

(** [s.mean()]: 0/0 is NaN when there is no value. *)
Definition mean (col : column) : float :=
  PrimFloat.div (sum col) (of_nat (count col)).

(** [s.var()] with [ddof=1]. *)
Definition var (col : column) : float :=
  match count col with
  | O | S O => PrimFloat.nan
  | S (S _) =>
      let avg := PrimFloat.div (sum col) (of_nat (count col)) in
      let sqr := total (map (fun x => PrimFloat.mul (PrimFloat.sub avg x)
                                                    (PrimFloat.sub avg x))
                            (dropna col)) in
      PrimFloat.div sqr (of_nat (count col - 1))
  end.

(** [s.std()]. *)
Definition std (col : column) : float := PrimFloat.sqrt (var col).

(** [s.min()]. *)
Definition min (col : column) : float :=
  match dropna col with
  | [] => PrimFloat.nan
  | x :: t => fold_left fmin t x
  end.

(** [s.iloc[-1]]. *)
Definition iloc_last (col : column) : result float :=
  match col with
  | [] => Raise IndexError
  | _ :: _ => Ok (last col PrimFloat.nan)
  end.

Fixpoint reindex (n : nat) (xs : list float) : column :=
  match n with
  | O => []
  | S n' =>
      match xs with
      | [] => PrimFloat.nan :: reindex n' []
      | x :: t => x :: reindex n' t
      end
  end.

(** [pd.DataFrame({'signals': a, 'returns': b})]. *)
Definition DataFrame (a b : arraylike) : result (column * column) :=
  match a, b with
  | PyList xs, PyList ys =>
      if Nat.eqb (List.length xs) (List.length ys)
      then Ok (xs, ys)
      else Raise ValueError
  | Series xs, Series ys =>
      let n := Nat.max (List.length xs) (List.length ys) in
      Ok (reindex n xs, reindex n ys)
  | Series xs, PyList ys =>
      if Nat.eqb (List.length ys) (List.length xs)
      then Ok (xs, ys)
      else Raise ValueError
  | PyList xs, Series ys =>
      if Nat.eqb (List.length xs) (List.length ys)
      then Ok (xs, ys)
      else Raise ValueError
  end.

Record frame : Type := {
  df_signals : column;
  df_returns : column;
  df_strategy_returns : column;
  df_cumulative_returns : column
}.

Record Results : Type := {
  Total_PnL : float;
  Sharpe_Ratio : float;
  Max_Drawdown : float;
  Cumulative_Return : float;
  Performance_DataFrame : frame
}.

Record chart : Type := {
  chart_title : string;
  chart_line : column
}.

(** Lines 25-26. *)
Definition strategy_returns (sig ret : column) : column :=
  fillna 0%float (zip_with PrimFloat.mul (shift1 sig) ret).

(** Line 29. *)
Definition cumulative_returns (sr : column) : column :=
  cumprod (radd 1%float sr).

(** Lines 41-42. *)
Definition drawdown (cr : column) : column :=
  let cumulative_max := cummax cr in
  zip_with PrimFloat.div (zip_with PrimFloat.sub cr cumulative_max) cumulative_max.

(** Line 38. *)
Definition sharpe (mean_return std_return : float) : float :=
  if negb (PrimFloat.eqb std_return 0%float)
  then PrimFloat.mul (PrimFloat.div mean_return std_return) (PrimFloat.sqrt 252%float)
  else PrimFloat.nan.

(** Lines 63-88. *)
Definition plot_performance (df : frame) (dd : column) : list chart :=
  [ {| chart_title := "Cumulative Returns"; chart_line := df_cumulative_returns df |};
    {| chart_title := "Drawdown"; chart_line := dd |} ].

(** Lines 5-61. *)
Definition backtest_strategy (signals returns : arraylike) (plot_charts : bool)
  : result (Results * list chart) :=
  cols <- DataFrame signals returns ;;
  let sr := strategy_returns (fst cols) (snd cols) in
  let df := {| df_signals := fst cols;
               df_returns := snd cols;
               df_strategy_returns := sr;
               df_cumulative_returns := cumulative_returns sr |} in
  let total_pnl := sum (df_strategy_returns df) in
  let mean_return := mean (df_strategy_returns df) in
  let std_return := std (df_strategy_returns df) in
  let sharpe_ratio := sharpe mean_return std_return in
  let dd := drawdown (df_cumulative_returns df) in
  let max_drawdown := min dd in
  last_row <- iloc_last (df_cumulative_returns df) ;;
  let cumulative_return := PrimFloat.sub last_row 1%float in
  let results := {| Total_PnL := total_pnl;
                    Sharpe_Ratio := sharpe_ratio;
                    Max_Drawdown := max_drawdown;
                    Cumulative_Return := cumulative_return;
                    Performance_DataFrame := df |} in
  Ok (results, if plot_charts then plot_performance df dd else []).

(** The input in either of its two forms. *)
Definition as_kind (series : bool) (xs : list float) : arraylike :=
  if series then Series xs else PyList xs.

End Binary64.

(** * Properties *)

Import Pandas Backtest Fetch.

(** ** Definitions of the statements *)

(** The running value of [cum_from] on a column without NaN. *)
Fixpoint scan (f : Q -> Q -> Q) (acc : option Q) (xs : list Q) : list Q :=
  match xs with
  | [] => []
  | x :: t =>
      let a := match acc with None => x | Some a => f a x end in
      a :: scan f (Some a) t
  end.

(** The strategy returns of two lists of numbers of one length. *)
Definition lagged (s r : list Q) : list Q :=
  match r with
  | [] => []
  | _ :: r' => 0 :: map (fun p => fst p * snd p) (combine s r')
  end.

(** The input in either of its two forms. *)
Definition as_kind (series : bool) (xs : list Q) : arraylike :=
  if series then Series xs else PyList xs.

(** The cumulative returns of a list of strategy returns. *)
Definition compound (sr : list Q) : list Q :=
  scan Qmult None (map (Qplus 1) sr).

(** The table of a run on the numbers [s] and [r]. *)
Definition table (s r : list Q) : frame :=
  {| df_signals := map Num s;
     df_returns := map Num r;
     df_strategy_returns := map Num (lagged s r);
     df_cumulative_returns := map Num (compound (lagged s r)) |}.

(** The dictionary of a run on the numbers [s] and [r]. *)
Definition summary (s r : list Q) : Results :=
  {| Total_PnL := total (lagged s r);
     Sharpe_Ratio := sharpe (mean (map Num (lagged s r))) (std (map Num (lagged s r)));
     Max_Drawdown := min (drawdown (map Num (compound (lagged s r))));
     Cumulative_Return := Num (last (compound (lagged s r)) 0 - 1);
     Performance_DataFrame := table s r |}.

(** The scenario of the specification, as binary64 values. *)
Definition scenario_signals : list float := [0; 1; 1; -1]%float.
Definition scenario_returns : list float := [0.01; 0.02; -0.01; 0.03]%float.

(** [op] folded over [f 0 .. f i], from the left. *)
Fixpoint fold_upto (op : Q -> Q -> Q) (f : nat -> Q) (i : nat) : Q :=
  match i with
  | O => f O
  | S j => op (fold_upto op f j) (f i)
  end.

(** The product of [f 0 .. f i]. *)
Definition prod_upto : (nat -> Q) -> nat -> Q := fold_upto Qmult.

(** The greatest of [f 0 .. f i]. *)
Definition max_upto : (nat -> Q) -> nat -> Q := fold_upto Qmax.

(** [signal[i-1] * return[i]], and 0 in row 0. *)
Definition lag_at (s r : list Q) (i : nat) : Q :=
  match i with
  | O => 0
  | S j => nth j s 0 * nth i r 0
  end.

(** The numbers of a column once its NaN cells are replaced by [v]. *)
Definition filled (v : Q) (col : column) : list Q :=
  map (fun c => match c with NaN => v | Num a => a end) col.

(** The drawdown of a column of numbers [cr], row by row. *)
Definition drawdown_list (cr : list Q) : list Q :=
  let mx := scan Qmax None cr in
  map (fun p => fst p / snd p)
    (combine (map (fun p => fst p - snd p) (combine cr mx)) mx).

(** The sum and the product of a list, from the right. *)
Definition qsum (xs : list Q) : Q := fold_right Qplus 0 xs.
Definition qprod (xs : list Q) : Q := fold_right Qmult 1 xs.

(** The strategy returns of a table with the columns [sig] and [ret]. *)
Definition numbers_of (sig ret : column) : list Q :=
  filled 0 (zip_with mul (shift1 sig) ret).

(** The table of a run whose first two columns are [sig] and [ret]. *)
Definition table_of (sig ret : column) : frame :=
  {| df_signals := sig;
     df_returns := ret;
     df_strategy_returns := map Num (numbers_of sig ret);
     df_cumulative_returns := map Num (compound (numbers_of sig ret)) |}.

(** The dictionary of a run whose first two columns are [sig] and [ret]. *)
Definition results_of (sig ret : column) : Results :=
  let sr := numbers_of sig ret in
  {| Total_PnL := total sr;
     Sharpe_Ratio := sharpe (mean (map Num sr)) (std (map Num sr));
     Max_Drawdown := min (drawdown (map Num (compound sr)));
     Cumulative_Return := Num (last (compound sr) 0 - 1);
     Performance_DataFrame := table_of sig ret |}.

(** Both inputs are Series. *)
Definition both_series (a b : arraylike) : bool :=
  match a, b with
  | Series _, Series _ => true
  | _, _ => false
  end.

(** The input [a] with every value multiplied by [k]. *)
Definition scale (k : Q) (a : arraylike) : arraylike :=
  match a with
  | PyList xs => PyList (map (Qmult k) xs)
  | Series xs => Series (map (Qmult k) xs)
  end.

(** The mean and the sample variance of a list of numbers, as [mean] and
    [var] compute them on a column without NaN. *)
Definition avgQ (sr : list Q) : Q := total sr / Qnat (List.length sr).
Definition varQ (sr : list Q) : Q :=
  total (map (fun x => (avgQ sr - x) * (avgQ sr - x)) sr) / Qnat (List.length sr - 1).

(** A column starts with the number 0 (or is empty). *)
Definition starts_at_0 (sr : list Q) : Prop :=
  match sr with [] => True | x :: _ => x = 0 end.

(** ** Columns of numbers *)

Lemma values_as_kind k xs : values (as_kind k xs) = xs.
Proof. destruct k; reflexivity. Qed.

Lemma cum_from_Num f xs : forall acc,
  cum_from f acc (map Num xs) = map Num (scan f acc xs).
Proof.
  induction xs as [|x t IH]; intros acc; simpl; [reflexivity|].
  now rewrite IH.
Qed.

Lemma dropna_Num xs : dropna (map Num xs) = xs.
Proof. induction xs as [|x t IH]; simpl; congruence. Qed.

Lemma radd_Num c xs : radd c (map Num xs) = map Num (map (Qplus c) xs).
Proof. unfold radd. rewrite !map_map. reflexivity. Qed.

Lemma fillna_Num v xs : fillna v (map Num xs) = map Num xs.
Proof. unfold fillna. rewrite map_map. reflexivity. Qed.

Lemma scan_length f xs : forall acc, List.length (scan f acc xs) = List.length xs.
Proof. induction xs as [|x t IH]; intros acc; simpl; [reflexivity|]. now rewrite IH. Qed.

Lemma reindex_length xs : reindex (List.length xs) xs = map Num xs.
Proof. induction xs as [|x t IH]; simpl; congruence. Qed.

Lemma reindex_rows n xs : List.length (reindex n xs) = n.
Proof.
  revert xs. induction n as [|n IH]; intros xs; simpl; [reflexivity|].
  destruct xs; simpl; now rewrite IH.
Qed.

Lemma zip_mul_Num xs : forall ys,
  zip_with mul (map Num xs) (map Num ys)
  = map Num (map (fun p => fst p * snd p) (combine xs ys)).
Proof.
  unfold zip_with.
  induction xs as [|x t IH]; intros [|y ys]; simpl; try reflexivity.
  now rewrite IH.
Qed.

Lemma combine_removelast {A B : Type} (xs : list A) : forall ys : list B,
  (List.length ys < List.length xs)%nat ->
  combine (removelast xs) ys = combine xs ys.
Proof.
  induction xs as [|x t IH]; intros ys H; simpl in *; [lia|].
  destruct t as [|x' t'].
  - destruct ys; simpl in *; [reflexivity|lia].
  - destruct ys as [|y ys]; [reflexivity|].
    simpl in H. cbn [combine]. f_equal. apply IH. simpl. lia.
Qed.

Lemma removelast_map {A B : Type} (f : A -> B) (xs : list A) :
  removelast (map f xs) = map f (removelast xs).
Proof.
  induction xs as [|x t IH]; [reflexivity|].
  destruct t as [|x' t']; [reflexivity|].
  change (f x :: removelast (map f (x' :: t')) = f x :: map f (removelast (x' :: t'))).
  now rewrite IH.
Qed.

Lemma strategy_returns_Num s r :
  List.length s = List.length r ->
  strategy_returns (map Num s) (map Num r) = map Num (lagged s r).
Proof.
  intros H. destruct s as [|s0 s'], r as [|r0 r']; try discriminate; [reflexivity|].
  unfold strategy_returns, lagged.
  change (map Num (s0 :: s')) with (Num s0 :: map Num s').
  cbn [shift1 map]. unfold zip_with at 1. cbn [combine map fst snd mul lift2 fillna].
  f_equal.
  change (Num s0 :: map Num s') with (map Num (s0 :: s')).
  rewrite removelast_map.
  fold (zip_with mul (map Num (removelast (s0 :: s'))) (map Num r')).
  rewrite zip_mul_Num, combine_removelast by (simpl in *; lia).
  apply fillna_Num.
Qed.

Lemma lagged_length s r :
  List.length s = List.length r -> List.length (lagged s r) = List.length s.
Proof.
  intros H. destruct r as [|r0 r']; simpl in *; [lia|].
  rewrite length_map, length_combine. lia.
Qed.

Lemma lagged_0 s r : r <> [] -> nth 0 (lagged s r) 0 = 0.
Proof. destruct r; [congruence|reflexivity]. Qed.

Lemma nth_combine_mul s : forall r i,
  (i < List.length s)%nat -> (i < List.length r)%nat ->
  nth i (map (fun p => fst p * snd p) (combine s r)) 0 = nth i s 0 * nth i r 0.
Proof.
  induction s as [|x t IH]; intros [|y r] i Hs Hr; simpl in *; try lia.
  destruct i; [reflexivity|]. apply IH; lia.
Qed.

Lemma lagged_S s r i :
  List.length s = List.length r -> (S i < List.length s)%nat ->
  nth (S i) (lagged s r) 0 = nth i s 0 * nth (S i) r 0.
Proof.
  intros H Hi. destruct r as [|r0 r']; simpl in *; [lia|].
  apply nth_combine_mul; lia.
Qed.

(** ** The run on two series of one length *)

Lemma DataFrame_equal a b :
  List.length (values a) = List.length (values b) ->
  DataFrame a b = Ok (map Num (values a), map Num (values b)).
Proof.
  intros H. destruct a as [xs|xs], b as [ys|ys]; simpl in *.
  - now rewrite H, Nat.eqb_refl.
  - now rewrite H, Nat.eqb_refl.
  - now rewrite H, Nat.eqb_refl.
  - rewrite H, Nat.max_id. rewrite <- H at 1. now rewrite !reindex_length.
Qed.

Lemma cumulative_returns_Num sr :
  cumulative_returns (map Num sr) = map Num (compound sr).
Proof.
  unfold cumulative_returns, cumprod, compound.
  now rewrite radd_Num, cum_from_Num.
Qed.

Lemma compound_length sr : List.length (compound sr) = List.length sr.
Proof. unfold compound. now rewrite scan_length, length_map. Qed.

Lemma last_Num (xs : list Q) :
  xs <> [] -> last (map Num xs) NaN = Num (last xs 0).
Proof.
  induction xs as [|x t IH]; [congruence|]. intros _.
  destruct t as [|x' t']; [reflexivity|].
  change (last (map Num (x' :: t')) NaN = Num (last (x' :: t') 0)).
  apply IH. discriminate.
Qed.

Lemma iloc_last_Num (xs : list Q) :
  xs <> [] -> iloc_last (map Num xs) = Ok (Num (last xs 0)).
Proof.
  intros H. unfold iloc_last. rewrite <- (last_Num xs H).
  destruct xs; [congruence|reflexivity].
Qed.

Lemma backtest_strategy_equal a b p :
  List.length (values a) = List.length (values b) ->
  values a <> [] ->
  backtest_strategy a b p
  = Ok (summary (values a) (values b),
        if p
        then plot_performance (table (values a) (values b))
               (drawdown (map Num (compound (lagged (values a) (values b)))))
        else []).
Proof.
  intros H Hne. unfold backtest_strategy.
  rewrite (DataFrame_equal a b H). cbn [bind fst snd].
  cbn [df_strategy_returns df_cumulative_returns].
  rewrite (strategy_returns_Num _ _ H), cumulative_returns_Num.
  rewrite iloc_last_Num.
  - cbn [bind sub lift2]. unfold sum. rewrite dropna_Num. reflexivity.
  - intros E. apply (f_equal (@List.length Q)) in E.
    rewrite compound_length, lagged_length in E by exact H.
    destruct (values a); [congruence|discriminate].
Qed.

(** ** The scenario of the specification *)

(** C1 fails on the code: on the scenario the total profit returned is
    not the binary64 value of 0.02 and the final cumulative return is not
    that of 0.0197; each is a neighbouring value, which the rounded
    additions and the rounded subtraction give. *)
Lemma scenario_values_rounded :
  exists res figs,
    Binary64.backtest_strategy (Binary64.PyList scenario_signals)
      (Binary64.PyList scenario_returns) false = Ok (res, figs) /\
    PrimFloat.eqb (Binary64.Total_PnL res) 0.02%float = false /\
    PrimFloat.eqb (Binary64.Cumulative_Return res) 0.0197%float = false.
Proof.
  eexists. eexists. split; [lazy; reflexivity|].
  split; vm_compute; reflexivity.
Qed.

(** C1, amended. On signals [0, 1, 1, -1] and returns [0.01, 0.02, -0.01,
    0.03], given as lists or as Series, with or without charts, the run
    returns a table whose strategy returns are [0, 0, -0.01, 0.03] and
    whose cumulative returns are [1, 1, 0.99, 1.0197], the final cumulative
    return 0.019700000000000051 and the total profit 0.019999999999999997:
    the values 0.0197 and 0.02 of the specification up to the rounding of
    binary64, each within 1e-15. *)
Theorem scenario_run_binary64 (ks kr p : bool) :
  exists res figs,
    Binary64.backtest_strategy (Binary64.as_kind ks scenario_signals)
      (Binary64.as_kind kr scenario_returns) p = Ok (res, figs) /\
    Binary64.df_strategy_returns (Binary64.Performance_DataFrame res)
    = [0; 0; -0.01; 0.03]%float /\
    Binary64.df_cumulative_returns (Binary64.Performance_DataFrame res)
    = [1; 1; 0.99; 1.0197]%float /\
    Binary64.Cumulative_Return res = 0.019700000000000051%float /\
    Binary64.Total_PnL res = 0.019999999999999997%float /\
    PrimFloat.ltb (PrimFloat.abs (PrimFloat.sub (Binary64.Cumulative_Return res) 0.0197))
                  1e-15 = true /\
    PrimFloat.ltb (PrimFloat.abs (PrimFloat.sub (Binary64.Total_PnL res) 0.02)) 1e-15
    = true.
Proof.
  destruct ks, kr, p;
    (eexists; eexists; split; [lazy; reflexivity|];
     repeat split; vm_compute; reflexivity).
Qed.

(** ** Strategy returns and compounding, row by row *)

Lemma fold_upto_ext op f g i :
  (forall k, (k <= i)%nat -> f k = g k) -> fold_upto op f i = fold_upto op g i.
Proof.
  induction i as [|i IH]; intros H; simpl.
  - apply H. lia.
  - rewrite IH by (intros k Hk; apply H; lia). now rewrite (H (S i)) by lia.
Qed.

Lemma scan_nth_S op xs : forall acc i,
  (S i < List.length xs)%nat ->
  nth (S i) (scan op acc xs) 0 = op (nth i (scan op acc xs) 0) (nth (S i) xs 0).
Proof.
  induction xs as [|x t IH]; intros acc i H; simpl in H; [lia|].
  cbn [scan nth]. destruct i as [|j].
  - destruct t as [|y t']; simpl in H; [lia|]. reflexivity.
  - rewrite IH by lia. reflexivity.
Qed.

Lemma scan_nth op xs i :
  (i < List.length xs)%nat ->
  nth i (scan op None xs) 0 = fold_upto op (fun k => nth k xs 0) i.
Proof.
  induction i as [|i IH]; intros H.
  - destruct xs; simpl in *; [lia|reflexivity].
  - rewrite scan_nth_S by exact H. rewrite IH by lia. reflexivity.
Qed.

Lemma nth_Num (xs : list Q) i :
  (i < List.length xs)%nat -> nth i (map Num xs) NaN = Num (nth i xs 0).
Proof.
  intros H. rewrite (nth_indep _ NaN (Num 0)) by (now rewrite length_map).
  apply (map_nth Num).
Qed.

Lemma lagged_nth s r i :
  List.length s = List.length r -> (i < List.length s)%nat ->
  nth i (lagged s r) 0 = lag_at s r i.
Proof.
  intros H Hi. destruct i as [|j].
  - apply lagged_0. destruct r; simpl in *; [lia|discriminate].
  - now apply lagged_S.
Qed.

Lemma compound_nth sr i :
  (i < List.length sr)%nat ->
  nth i (compound sr) 0 = prod_upto (fun k => 1 + nth k sr 0) i.
Proof.
  intros H. unfold compound, prod_upto.
  rewrite scan_nth by (now rewrite length_map).
  apply fold_upto_ext. intros k Hk.
  rewrite (nth_indep _ 0 (1 + 0)) by (rewrite length_map; lia).
  apply (map_nth (Qplus 1)).
Qed.

(** C2. For two inputs of one length the table is built, and in it the
    strategy return of row 0 is 0, that of a row i >= 1 is
    signal[i-1] * return[i], and the cumulative return of row i is the
    product of 1 + strategy_return[k] over k = 0..i.  On a non-empty input
    these are the columns of the table the run returns. *)
Theorem strategy_and_cumulative_rows (a b : arraylike) :
  List.length (values a) = List.length (values b) ->
  exists sig ret,
    DataFrame a b = Ok (sig, ret) /\
    (forall i, (i < List.length (values a))%nat ->
       nth i (strategy_returns sig ret) NaN
       = Num (match i with
              | O => 0
              | S j => nth j (values a) 0 * nth i (values b) 0
              end)) /\
    (forall i, (i < List.length (values a))%nat ->
       exists sr : nat -> Q,
         (forall k, (k <= i)%nat -> nth k (strategy_returns sig ret) NaN = Num (sr k)) /\
         nth i (cumulative_returns (strategy_returns sig ret)) NaN
         = Num (prod_upto (fun k => 1 + sr k) i)) /\
    (forall p, values a <> [] ->
       exists res figs,
         backtest_strategy a b p = Ok (res, figs) /\
         df_strategy_returns (Performance_DataFrame res) = strategy_returns sig ret /\
         df_cumulative_returns (Performance_DataFrame res)
         = cumulative_returns (strategy_returns sig ret)).
Proof.
  intros H. exists (map Num (values a)), (map Num (values b)).
  rewrite (strategy_returns_Num _ _ H), cumulative_returns_Num.
  split; [now apply DataFrame_equal|]. split; [|split].
  - intros i Hi. rewrite nth_Num by (now rewrite lagged_length).
    now rewrite lagged_nth.
  - intros i Hi. exists (fun k => nth k (lagged (values a) (values b)) 0). split.
    + intros k Hk. apply nth_Num. rewrite lagged_length by exact H. lia.
    + rewrite nth_Num by (now rewrite compound_length, lagged_length).
      rewrite compound_nth by (now rewrite lagged_length). reflexivity.
  - intros p Hne. eexists. eexists. split.
    + now apply backtest_strategy_equal.
    + split; reflexivity.
Qed.

Lemma strategy_and_cumulative_rows_witness :
  exists sig ret,
    DataFrame (PyList [1; 0; -1]) (PyList [0.01; 0.02; 0.03]) = Ok (sig, ret) /\
    nth 2 (strategy_returns sig ret) NaN = Num (0 * 0.03) /\
    nth 0 (strategy_returns sig ret) NaN = Num 0.
Proof.
  destruct (strategy_and_cumulative_rows (PyList [1; 0; -1]) (PyList [0.01; 0.02; 0.03]))
    as (sig & ret & HD & Hsr & _); [reflexivity|].
  exists sig, ret. split; [exact HD|]. split.
  - apply (Hsr 2%nat). simpl. lia.
  - apply (Hsr 0%nat). simpl. lia.
Defined.

(** ** What a returning run has computed *)

Lemma fillna_filled v col : fillna v col = map Num (filled v col).
Proof.
  unfold fillna, filled. rewrite map_map. apply map_ext. now intros [|x].
Qed.

Lemma strategy_returns_numbers sig ret :
  strategy_returns sig ret = map Num (filled 0 (zip_with mul (shift1 sig) ret)).
Proof. apply fillna_filled. Qed.

Lemma backtest_strategy_inv a b p res figs :
  backtest_strategy a b p = Ok (res, figs) ->
  exists sig ret sr last_row,
    DataFrame a b = Ok (sig, ret) /\
    strategy_returns sig ret = map Num sr /\
    Performance_DataFrame res
    = {| df_signals := sig; df_returns := ret;
         df_strategy_returns := map Num sr;
         df_cumulative_returns := map Num (compound sr) |} /\
    Total_PnL res = total sr /\
    Sharpe_Ratio res = sharpe (mean (map Num sr)) (std (map Num sr)) /\
    Max_Drawdown res = min (drawdown (map Num (compound sr))) /\
    iloc_last (map Num (compound sr)) = Ok last_row /\
    Cumulative_Return res = sub last_row (Num 1).
Proof.
  unfold backtest_strategy. destruct (DataFrame a b) as [[sig ret]|e]; [|discriminate].
  cbn [bind fst snd df_strategy_returns df_cumulative_returns].
  rewrite (strategy_returns_numbers sig ret), cumulative_returns_Num.
  set (sr := filled 0 (zip_with mul (shift1 sig) ret)).
  destruct (iloc_last (map Num (compound sr))) as [l|e] eqn:El; [|discriminate].
  cbn [bind]. intros E. inversion E; subst; clear E.
  exists sig, ret, sr, l. cbn.
  unfold sum. rewrite dropna_Num.
  split; [reflexivity|]. split; [apply strategy_returns_numbers|].
  split; [reflexivity|]. split; [reflexivity|]. split; [reflexivity|].
  split; [reflexivity|]. split; [exact El|reflexivity].
Qed.

Lemma nth_Num_inv (xs : list Q) i x :
  nth i (map Num xs) NaN = Num x -> (i < List.length xs)%nat /\ nth i xs 0 = x.
Proof.
  intros H. destruct (Nat.lt_ge_cases i (List.length xs)) as [Hi|Hi].
  - split; [exact Hi|]. rewrite nth_Num in H by exact Hi. congruence.
  - rewrite nth_overflow in H by (now rewrite length_map). discriminate.
Qed.

Lemma prod_upto_pos f i :
  (forall k, (k <= i)%nat -> 0 < f k) -> 0 < prod_upto f i.
Proof.
  unfold prod_upto. induction i as [|i IH]; intros H; simpl.
  - apply H. lia.
  - apply Qmult_lt_0_compat; [apply IH; intros k Hk; apply H; lia|apply H; lia].
Qed.

(** C8. In the table of a run, if the strategy returns of the rows 0..i
    are all greater than -1, the cumulative return of row i is a number
    that is not negative. *)
Theorem cumulative_return_nonneg a b p res figs i :
  backtest_strategy a b p = Ok (res, figs) ->
  (forall k, (k <= i)%nat ->
     exists x, nth k (df_strategy_returns (Performance_DataFrame res)) NaN = Num x
               /\ -1 < x) ->
  exists c, nth i (df_cumulative_returns (Performance_DataFrame res)) NaN = Num c
            /\ 0 <= c.
Proof.
  intros Hrun H.
  destruct (backtest_strategy_inv _ _ _ _ _ Hrun)
    as (sig & ret & sr & l & _ & _ & Hdf & _).
  rewrite Hdf in *. cbn [df_strategy_returns df_cumulative_returns] in *.
  assert (Hi : (i < List.length sr)%nat).
  { destruct (H i (Nat.le_refl i)) as (x & Hx & _). now apply nth_Num_inv in Hx. }
  exists (nth i (compound sr) 0). split.
  - apply nth_Num. now rewrite compound_length.
  - rewrite compound_nth by exact Hi. apply Qlt_le_weak, prod_upto_pos.
    intros k Hk. destruct (H k Hk) as (x & Hx & Hlt).
    apply nth_Num_inv in Hx. destruct Hx as [_ ->].
    rewrite <- (Qplus_opp_r 1), (Qplus_comm 1 x), (Qplus_comm 1 (- (1))).
    now apply Qplus_lt_l.
Qed.

Lemma cumulative_return_nonneg_witness :
  exists c, nth 2 (map Num (compound (lagged [1; 1; 1] [0.5; -0.5; 0.25]))) NaN = Num c
            /\ 0 <= c.
Proof.
  apply (cumulative_return_nonneg (PyList [1; 1; 1]) (PyList [0.5; -0.5; 0.25]) false
           (summary [1; 1; 1] [0.5; -0.5; 0.25]) [] 2%nat).
  - reflexivity.
  - intros k Hk.
    destruct k as [|[|[|k]]]; [| | |lia]; eexists; (split; [reflexivity|reflexivity]).
Defined.

(** ** Drawdown *)

Lemma zip_sub_Num xs : forall ys,
  zip_with sub (map Num xs) (map Num ys)
  = map Num (map (fun p => fst p - snd p) (combine xs ys)).
Proof.
  unfold zip_with.
  induction xs as [|x t IH]; intros [|y ys]; simpl; try reflexivity.
  now rewrite IH.
Qed.

Lemma zip_div_Num xs : forall ys,
  Forall (fun m => ~ m == 0) ys ->
  zip_with div (map Num xs) (map Num ys)
  = map Num (map (fun p => fst p / snd p) (combine xs ys)).
Proof.
  unfold zip_with.
  induction xs as [|x t IH]; intros [|y ys] H; simpl; try reflexivity.
  inversion H as [|? ? Hy Hys]; subst.
  rewrite IH by exact Hys. f_equal.
  destruct (Qeq_bool y 0) eqn:E; [|reflexivity].
  apply Qeq_bool_eq in E. contradiction.
Qed.

Lemma scan_max_ge lo xs : forall acc,
  match acc with
  | Some a => lo <= a
  | None => match xs with [] => True | x :: _ => lo <= x end
  end ->
  Forall (Qle lo) (scan Qmax acc xs).
Proof.
  induction xs as [|x t IH]; intros acc H; simpl; constructor.
  - destruct acc as [a|]; [|exact H].
    apply Qle_trans with a; [exact H|apply Q.le_max_l].
  - apply IH. destruct acc as [a|]; [|exact H].
    apply Qle_trans with a; [exact H|apply Q.le_max_l].
Qed.

Lemma cummax_ge_1 sr :
  match sr with [] => True | x :: _ => x = 0 end ->
  Forall (Qle 1) (scan Qmax None (compound sr)).
Proof.
  destruct sr as [|x t]; [constructor|]. intros ->.
  unfold compound. cbn [map scan].
  constructor; [|apply scan_max_ge]; vm_compute; discriminate.
Qed.

Lemma cummax_lagged_ge_1 s r :
  Forall (Qle 1) (scan Qmax None (compound (lagged s r))).
Proof. apply cummax_ge_1. now destruct r. Qed.

Lemma Forall_ge1_ne0 xs : Forall (Qle 1) xs -> Forall (fun m => ~ m == 0) xs.
Proof.
  apply Forall_impl. intros m Hm E. rewrite E in Hm. now apply Hm.
Qed.

(** The divisor of the drawdown is at least 1 in every row, hence never
    zero, whatever the two columns of the table: row 0 of the strategy
    returns is 0 and row 0 of the cumulative returns is 1. *)
Lemma cummax_ne_0 sig ret :
  exists sr,
    strategy_returns sig ret = map Num sr /\
    cummax (cumulative_returns (strategy_returns sig ret))
    = map Num (scan Qmax None (compound sr)) /\
    Forall (fun m => ~ m == 0) (scan Qmax None (compound sr)).
Proof.
  exists (filled 0 (zip_with mul (shift1 sig) ret)).
  split; [apply strategy_returns_numbers|].
  rewrite strategy_returns_numbers, cumulative_returns_Num.
  split; [apply cum_from_Num|].
  apply Forall_ge1_ne0, cummax_ge_1.
  destruct sig as [|s0 sig'], ret as [|r0 ret']; exact I || reflexivity.
Qed.

Lemma drawdown_Num_gen sr :
  match sr with [] => True | x :: _ => x = 0 end ->
  drawdown (map Num (compound sr)) = map Num (drawdown_list (compound sr)).
Proof.
  intros H. unfold drawdown, drawdown_list, cummax.
  rewrite cum_from_Num, zip_sub_Num.
  apply zip_div_Num, Forall_ge1_ne0, cummax_ge_1, H.
Qed.

Lemma drawdown_Num s r :
  drawdown (map Num (compound (lagged s r)))
  = map Num (drawdown_list (compound (lagged s r))).
Proof. apply drawdown_Num_gen. now destruct r. Qed.

Lemma nth_zip (f : Q * Q -> Q) xs : forall ys i,
  (i < List.length xs)%nat -> (i < List.length ys)%nat ->
  nth i (map f (combine xs ys)) 0 = f (nth i xs 0, nth i ys 0).
Proof.
  induction xs as [|x t IH]; intros [|y ys] i Hx Hy; simpl in *; try lia.
  destruct i; [reflexivity|]. apply IH; lia.
Qed.

Lemma drawdown_list_length cr : List.length (drawdown_list cr) = List.length cr.
Proof.
  unfold drawdown_list.
  rewrite length_map, length_combine, length_map, length_combine, scan_length. lia.
Qed.

Lemma drawdown_list_nth cr i :
  (i < List.length cr)%nat ->
  nth i (drawdown_list cr) 0
  = (nth i cr 0 - max_upto (fun k => nth k cr 0) i) / max_upto (fun k => nth k cr 0) i.
Proof.
  intros H. unfold drawdown_list, max_upto.
  rewrite nth_zip
    by (rewrite ?length_map, ?length_combine, ?scan_length; lia).
  rewrite nth_zip by (rewrite ?scan_length; lia).
  rewrite scan_nth by exact H. reflexivity.
Qed.

Lemma max_upto_ge f i : f i <= max_upto f i.
Proof. destruct i; simpl; [apply Qle_refl|apply Q.le_max_r]. Qed.

Lemma drawdown_le_0 c m : 1 <= m -> c <= m -> (c - m) / m <= 0.
Proof.
  intros Hm Hc. apply Qle_shift_div_r.
  - apply Qlt_le_trans with 1; [reflexivity|exact Hm].
  - rewrite Qmult_0_l. apply (Qplus_le_l _ _ m). ring_simplify. exact Hc.
Qed.

Lemma fold_min_In t : forall x, In (fold_left Qmin t x) (x :: t).
Proof.
  induction t as [|y t IH]; intros x; simpl; [now left|].
  destruct (IH (Qmin x y)) as [E|HI].
  - rewrite <- E. unfold Qmin, GenericMinMax.gmin.
    destruct (x ?= y); auto.
  - right. now right.
Qed.

Lemma fold_min_le t : forall x d, In d (x :: t) -> fold_left Qmin t x <= d.
Proof.
  assert (Hacc : forall t x, fold_left Qmin t x <= x).
  { induction t0 as [|y t0 IH]; intros x; simpl; [apply Qle_refl|].
    apply Qle_trans with (Qmin x y); [apply IH|apply Q.le_min_l]. }
  induction t as [|y t IH]; intros x d Hd; simpl in *.
  - destruct Hd as [->|[]]. apply Qle_refl.
  - destruct Hd as [->|[->|Hd]].
    + apply Qle_trans with (Qmin d y); [apply Hacc|apply Q.le_min_l].
    + apply Qle_trans with (Qmin x d); [apply Hacc|apply Q.le_min_r].
    + apply IH. now right.
Qed.

Lemma min_Num xs :
  xs <> [] ->
  exists m, min (map Num xs) = Num m /\ In m xs /\ forall d, In d xs -> m <= d.
Proof.
  intros H. unfold min. rewrite dropna_Num. destruct xs as [|x t]; [congruence|].
  eexists. split; [reflexivity|]. split; [apply fold_min_In|apply fold_min_le].
Qed.

(** C4. On a non-empty input of two series of one length the run returns;
    the drawdown of row i is (cumulative_return[i] - running_max[i]) /
    running_max[i], where running_max[i] is the greatest cumulative return
    of the rows 0..i; it is never positive; and the maximum drawdown
    returned is the least value of the drawdown column. *)
Theorem drawdown_rows a b p :
  List.length (values a) = List.length (values b) ->
  values a <> [] ->
  exists res figs cr dd,
    backtest_strategy a b p = Ok (res, figs) /\
    df_cumulative_returns (Performance_DataFrame res) = map Num cr /\
    drawdown (df_cumulative_returns (Performance_DataFrame res)) = map Num dd /\
    List.length cr = List.length (values a) /\
    List.length dd = List.length (values a) /\
    (forall i, (i < List.length (values a))%nat ->
       nth i dd 0
       = (nth i cr 0 - max_upto (fun k => nth k cr 0) i)
         / max_upto (fun k => nth k cr 0) i
       /\ nth i dd 0 <= 0) /\
    exists m, Max_Drawdown res = Num m /\ In m dd /\ forall d, In d dd -> m <= d.
Proof.
  intros H Hne.
  set (cr := compound (lagged (values a) (values b))).
  assert (Hlen : List.length cr = List.length (values a)).
  { unfold cr. now rewrite compound_length, lagged_length. }
  exists (summary (values a) (values b)). eexists. exists cr, (drawdown_list cr).
  split; [now apply backtest_strategy_equal|].
  cbn [summary table Performance_DataFrame df_cumulative_returns Max_Drawdown].
  fold cr. split; [reflexivity|].
  split; [apply drawdown_Num|]. split; [exact Hlen|].
  split; [now rewrite drawdown_list_length|]. split.
  - intros i Hi. rewrite drawdown_list_nth by lia. split; [reflexivity|].
    apply drawdown_le_0; [|apply (max_upto_ge (fun k => nth k cr 0) i)].
    pose proof (cummax_lagged_ge_1 (values a) (values b)) as Hge. fold cr in Hge.
    rewrite Forall_forall in Hge.
    unfold max_upto. rewrite <- scan_nth by lia.
    apply Hge, nth_In. rewrite scan_length. lia.
  - unfold cr. rewrite drawdown_Num. apply min_Num.
    intros E. apply (f_equal (@List.length Q)) in E.
    rewrite drawdown_list_length in E. fold cr in E. rewrite Hlen in E.
    destruct (values a); [congruence|discriminate].
Qed.

Lemma drawdown_rows_witness :
  exists res figs dd,
    backtest_strategy (PyList [1; 1; 0]) (PyList [0.5; -0.5; 0.25]) true = Ok (res, figs) /\
    drawdown (df_cumulative_returns (Performance_DataFrame res)) = map Num dd /\
    nth 1 dd 0 <= 0 /\
    exists m, Max_Drawdown res = Num m /\ In m dd.
Proof.
  destruct (drawdown_rows (PyList [1; 1; 0]) (PyList [0.5; -0.5; 0.25]) true)
    as (res & figs & cr & dd & Hrun & _ & Hdd & _ & _ & Hrow & m & Hm & Hin & _);
    [reflexivity|discriminate|].
  exists res, figs, dd. split; [exact Hrun|]. split; [exact Hdd|]. split.
  - apply (Hrow 1%nat). simpl. lia.
  - exists m. split; assumption.
Defined.

(** ** A flat signal *)

Lemma scan_Forall (P : Q -> Prop) op xs :
  (forall a x, P a -> P x -> P (op a x)) ->
  Forall P xs ->
  forall acc, match acc with Some a => P a | None => True end ->
  Forall P (scan op acc xs).
Proof.
  intros Hop. induction 1 as [|x t Hx Ht IH]; intros acc Hacc; simpl; [constructor|].
  assert (Ha : P match acc with None => x | Some a => op a x end).
  { destruct acc as [a|]; [now apply Hop|exact Hx]. }
  constructor; [exact Ha|]. now apply IH.
Qed.

Lemma lagged_zero s r :
  Forall (fun x => x == 0) s -> Forall (fun x => x == 0) (lagged s r).
Proof.
  intros Hs. destruct r as [|r0 r']; simpl; constructor; [reflexivity|].
  rewrite Forall_forall in *. intros q Hq.
  apply in_map_iff in Hq. destruct Hq as ([x y] & <- & Hin).
  apply in_combine_l in Hin. simpl. rewrite (Hs x Hin). apply Qmult_0_l.
Qed.

Lemma compound_one sr :
  Forall (fun x => x == 0) sr -> Forall (fun x => x == 1) (compound sr).
Proof.
  intros H. unfold compound. apply scan_Forall.
  - intros a x Ha Hx. rewrite Ha, Hx. reflexivity.
  - rewrite Forall_forall in *. intros q Hq.
    apply in_map_iff in Hq. destruct Hq as (x & <- & Hin).
    rewrite (H x Hin). reflexivity.
  - exact I.
Qed.

Lemma drawdown_list_zero cr :
  Forall (fun x => x == 1) cr -> Forall (fun x => x == 0) (drawdown_list cr).
Proof.
  intros H. unfold drawdown_list.
  assert (Hmx : Forall (fun x => x == 1) (scan Qmax None cr)).
  { apply scan_Forall; [|exact H|exact I].
    intros a x Ha Hx. destruct (Q.max_dec a x) as [E|E]; now rewrite E. }
  rewrite Forall_forall in *. intros q Hq.
  apply in_map_iff in Hq. destruct Hq as ([d m] & <- & Hin).
  pose proof (in_combine_l _ _ _ _ Hin) as Hd.
  pose proof (in_combine_r _ _ _ _ Hin) as Hm.
  apply in_map_iff in Hd. destruct Hd as ([c m'] & <- & Hin').
  pose proof (in_combine_l _ _ _ _ Hin') as Hc.
  pose proof (in_combine_r _ _ _ _ Hin') as Hm'.
  simpl. rewrite (H c Hc), (Hmx m' Hm'), (Hmx m Hm). reflexivity.
Qed.

Lemma total_zero xs : Forall (fun x => x == 0) xs -> total xs == 0.
Proof.
  intros H. unfold total.
  assert (G : forall acc, acc == 0 -> fold_left Qplus xs acc == 0).
  { induction H as [|x t Hx Ht IH]; intros acc Hacc; simpl; [exact Hacc|].
    apply IH. rewrite Hacc, Hx. reflexivity. }
  apply G. reflexivity.
Qed.

Lemma Forall_Num (c : Q) xs :
  Forall (fun x => x == c) xs -> Forall (fun x => ceq x (Num c)) (map Num xs).
Proof. intros H. rewrite Forall_map. exact H. Qed.

(** C5. On a non-empty input whose signals are all zero, with any returns
    of the same length, the run returns a table with one row for each row
    of the input, whose strategy returns are all 0 and whose cumulative
    returns are all 1, a maximum drawdown of 0 and a total profit of 0. *)
Theorem flat_signal_run a b p :
  List.length (values a) = List.length (values b) ->
  values a <> [] ->
  Forall (fun x => x == 0) (values a) ->
  exists res figs,
    backtest_strategy a b p = Ok (res, figs) /\
    List.length (df_strategy_returns (Performance_DataFrame res))
    = List.length (values a) /\
    List.length (df_cumulative_returns (Performance_DataFrame res))
    = List.length (values a) /\
    Forall (fun c => ceq c (Num 0)) (df_strategy_returns (Performance_DataFrame res)) /\
    Forall (fun c => ceq c (Num 1)) (df_cumulative_returns (Performance_DataFrame res)) /\
    ceq (Max_Drawdown res) (Num 0) /\
    Total_PnL res == 0.
Proof.
  intros H Hne Hz.
  pose proof (lagged_zero _ (values b) Hz) as Hsr.
  pose proof (compound_one _ Hsr) as Hcr.
  pose proof (drawdown_list_zero _ Hcr) as Hdd.
  exists (summary (values a) (values b)). eexists.
  split; [now apply backtest_strategy_equal|].
  cbn [summary table Performance_DataFrame df_strategy_returns
       df_cumulative_returns Max_Drawdown Total_PnL].
  split; [now rewrite length_map, lagged_length|].
  split; [now rewrite length_map, compound_length, lagged_length|].
  split; [now apply Forall_Num|]. split; [now apply Forall_Num|]. split.
  - rewrite drawdown_Num.
    destruct (min_Num (drawdown_list (compound (lagged (values a) (values b)))))
      as (m & -> & Hin & _).
    + intros E. apply (f_equal (@List.length Q)) in E.
      rewrite drawdown_list_length, compound_length, lagged_length in E by exact H.
      destruct (values a); [congruence|discriminate].
    + rewrite Forall_forall in Hdd. exact (Hdd m Hin).
  - now apply total_zero.
Qed.

Lemma flat_signal_run_witness :
  exists res figs,
    backtest_strategy (Series [0; 0; 0]) (Series [0.01; -0.02; 0.03]) false
    = Ok (res, figs) /\
    List.length (df_strategy_returns (Performance_DataFrame res)) = 3%nat /\
    ceq (Max_Drawdown res) (Num 0) /\
    Total_PnL res == 0.
Proof.
  destruct (flat_signal_run (Series [0; 0; 0]) (Series [0.01; -0.02; 0.03]) false)
    as (res & figs & Hrun & Hlen & _ & _ & _ & Hdd & Hpnl).
  - reflexivity.
  - discriminate.
  - repeat constructor.
  - exists res, figs. split; [exact Hrun|]. split; [exact Hlen|]. split; assumption.
Defined.

(** ** Reordering *)

Lemma fold_left_plus xs : forall acc, fold_left Qplus xs acc == acc + qsum xs.
Proof.
  induction xs as [|x t IH]; intros acc; simpl.
  - now rewrite Qplus_0_r.
  - rewrite IH. now rewrite Qplus_assoc.
Qed.

Lemma total_qsum xs : total xs == qsum xs.
Proof. unfold total. rewrite fold_left_plus. apply Qplus_0_l. Qed.

Lemma last_cons {A : Type} (l : list A) : forall x d, last (x :: l) d = last l x.
Proof.
  induction l as [|y t IH]; intros x d; [reflexivity|].
  change (last (y :: t) d = last (y :: t) x). now rewrite !IH.
Qed.

Lemma last_scan_mul ys : forall a,
  last (scan Qmult (Some a) ys) a == a * qprod ys.
Proof.
  induction ys as [|y t IH]; intros a.
  - simpl. now rewrite Qmult_1_r.
  - cbn [scan]. rewrite last_cons, IH. cbn [qprod fold_right].
    now rewrite Qmult_assoc.
Qed.

Lemma last_compound sr :
  sr <> [] -> last (compound sr) 0 == qprod (map (Qplus 1) sr).
Proof.
  destruct sr as [|x t]; [congruence|]. intros _.
  unfold compound. cbn [map scan]. rewrite last_cons, last_scan_mul. reflexivity.
Qed.

Lemma compound_nil sr : compound sr = [] -> sr = [].
Proof.
  intros E. apply (f_equal (@List.length Q)) in E. rewrite compound_length in E.
  destruct sr; [reflexivity|discriminate].
Qed.

Lemma iloc_last_inv (xs : list Q) l :
  iloc_last (map Num xs) = Ok l -> xs <> [] /\ l = Num (last xs 0).
Proof.
  intros E. destruct xs as [|x t]; [discriminate|].
  split; [discriminate|]. rewrite iloc_last_Num in E by discriminate. congruence.
Qed.

(** C6 fails on the code: the rows (signal, return) of the second run are
    those of the first in another order, and both the total profit and the
    final cumulative return differ. *)
Lemma reordering_changes_result :
  Permutation (combine [1; 0] [0; 0.5]) (combine [0; 1] [0.5; 0]) /\
  exists res figs res' figs',
    backtest_strategy (PyList [1; 0]) (PyList [0; 0.5]) false = Ok (res, figs) /\
    backtest_strategy (PyList [0; 1]) (PyList [0.5; 0]) false = Ok (res', figs') /\
    ~ Total_PnL res == Total_PnL res' /\
    ~ ceq (Cumulative_Return res) (Cumulative_Return res').
Proof.
  split; [apply perm_swap|].
  exists (summary [1; 0] [0; 0.5]), [], (summary [0; 1] [0.5; 0]), [].
  split; [reflexivity|]. split; [reflexivity|].
  split; vm_compute; discriminate.
Qed.

(** C6, amended. Reordering the rows of both series in the same way can
    change the total profit and the final cumulative return, because the
    strategy return of a row is its return times the signal of the row
    before it.  On every input of two rows the total profit is
    signal[0] * return[1] and the final cumulative return is
    (1 + 0) * (1 + signal[0] * return[1]) - 1; with the two rows swapped
    they are signal[1] * return[0] and
    (1 + 0) * (1 + signal[1] * return[0]) - 1; so the swap leaves the total
    profit unchanged exactly when the two products are equal. *)
Theorem swapped_rows ks kr p s0 s1 r0 r1 :
  exists res figs res' figs',
    backtest_strategy (as_kind ks [s0; s1]) (as_kind kr [r0; r1]) p = Ok (res, figs) /\
    backtest_strategy (as_kind ks [s1; s0]) (as_kind kr [r1; r0]) p = Ok (res', figs') /\
    df_strategy_returns (Performance_DataFrame res) = [Num 0; Num (s0 * r1)] /\
    df_strategy_returns (Performance_DataFrame res') = [Num 0; Num (s1 * r0)] /\
    Total_PnL res == s0 * r1 /\
    Total_PnL res' == s1 * r0 /\
    Cumulative_Return res = Num ((1 + 0) * (1 + s0 * r1) - 1) /\
    Cumulative_Return res' = Num ((1 + 0) * (1 + s1 * r0) - 1) /\
    (Total_PnL res == Total_PnL res' <-> s0 * r1 == s1 * r0).
Proof.
  eexists. eexists. eexists. eexists.
  split; [apply backtest_strategy_equal; rewrite !values_as_kind;
          [reflexivity|discriminate]|].
  split; [apply backtest_strategy_equal; rewrite !values_as_kind;
          [reflexivity|discriminate]|].
  rewrite !values_as_kind.
  cbn [summary table Performance_DataFrame df_strategy_returns Total_PnL
       Cumulative_Return].
  assert (T : forall u v w z, total (lagged [u; v] [w; z]) == u * z).
  { intros. unfold total, lagged. simpl. ring. }
  split; [reflexivity|]. split; [reflexivity|].
  split; [apply T|]. split; [apply T|].
  split; [reflexivity|]. split; [reflexivity|].
  rewrite !T. reflexivity.
Qed.

(** ** Sharpe ratio *)

Lemma Q2R_zero : Q2R 0 = 0%R.
Proof. unfold Q2R. simpl. lra. Qed.

Lemma sharpe_std_nan m : sharpe m NaN = NaN.
Proof. unfold sharpe. simpl. now destruct (to_R m). Qed.

Lemma sharpe_std_zero m : sharpe m (Num 0%R) = NaN.
Proof.
  unfold sharpe, ne0. destruct (Req_dec_T 0 0) as [_|N]; [reflexivity|].
  now contradiction N.
Qed.

Lemma sharpe_std_num m sigma :
  sigma <> 0%R ->
  sharpe (Num m) (Num sigma) = Num (Q2R m / sigma * sqrt 252)%R.
Proof.
  intros H. unfold sharpe, ne0, to_R, Rdiv_cell.
  destruct (Req_dec_T sigma 0) as [E|_]; [contradiction|]. reflexivity.
Qed.

Lemma count_Num xs : count (map Num xs) = List.length xs.
Proof. unfold count. now rewrite dropna_Num. Qed.

Lemma var_single x : var (map Num [x]) = NaN.
Proof. reflexivity. Qed.

Lemma var_zero sr :
  Forall (fun x => x == 0) sr -> (2 <= List.length sr)%nat ->
  exists v, var (map Num sr) = Num v /\ v == 0.
Proof.
  intros Hz Hlen. unfold var. rewrite count_Num. unfold sum. rewrite dropna_Num.
  destruct sr as [|x [|y t]]; simpl in Hlen; try lia.
  cbn [List.length]. eexists. split; [reflexivity|].
  set (l := x :: y :: t) in *.
  assert (Hsqr : total (map (fun x0 => (total l / Qnat (S (S (List.length t))) - x0)
                                       * (total l / Qnat (S (S (List.length t))) - x0)) l)
                 == 0).
  { apply total_zero. rewrite Forall_forall in *. intros q Hq.
    apply in_map_iff in Hq. destruct Hq as (x0 & <- & Hin).
    assert (Ht : total l == 0) by (apply total_zero; now rewrite Forall_forall).
    rewrite (Hz x0 Hin), Ht. unfold Qdiv. rewrite Qmult_0_l. reflexivity. }
  rewrite Hsqr. unfold Qdiv. apply Qmult_0_l.
Qed.

Lemma std_zero sr :
  Forall (fun x => x == 0) sr -> (2 <= List.length sr)%nat ->
  std (map Num sr) = Num 0%R.
Proof.
  intros Hz Hlen. unfold std. destruct (var_zero sr Hz Hlen) as (v & -> & Hv).
  rewrite (Qeq_eqR _ _ Hv), Q2R_zero, sqrt_0. reflexivity.
Qed.

Lemma sharpe_flat sr :
  sr <> [] -> Forall (fun x => x == 0) sr ->
  sharpe (mean (map Num sr)) (std (map Num sr)) = NaN.
Proof.
  intros Hne Hz. destruct sr as [|x [|y t]]; [congruence| |].
  - unfold std. rewrite var_single. apply sharpe_std_nan.
  - rewrite std_zero by (simpl; lia || exact Hz). apply sharpe_std_zero.
Qed.

(** C3 fails on the code: a constant signal 1 with a constant return 0.01
    does not give strategy returns of zero variance, since row 0 has the
    strategy return 0, and the Sharpe ratio returned is a number. *)
Lemma constant_signal_sharpe_defined :
  exists res figs,
    backtest_strategy (PyList [1; 1]) (PyList [0.01; 0.01]) false = Ok (res, figs) /\
    df_strategy_returns (Performance_DataFrame res) = [Num 0; Num (1 * 0.01)] /\
    is_nan (Sharpe_Ratio res) = false.
Proof.
  exists (summary [1; 1] [0.01; 0.01]), []. split; [reflexivity|]. split; [reflexivity|].
  cbn [summary Sharpe_Ratio]. unfold std.
  remember (var (map Num (lagged [1; 1] [0.01; 0.01]))) as v eqn:Ev.
  remember (mean (map Num (lagged [1; 1] [0.01; 0.01]))) as m eqn:Em.
  vm_compute in Ev, Em. subst v m.
  rewrite sharpe_std_num; [reflexivity|].
  apply Rgt_not_eq, sqrt_lt_R0. rewrite <- Q2R_zero. apply Qlt_Rlt. reflexivity.
Qed.

(** C3, amended. On a non-empty input of two series of one length the run
    returns, and: if the strategy returns are all equal (zero variance),
    as they are for signals that are all zero, the Sharpe ratio is NaN; it
    is NaN as well when the standard deviation is NaN (a single row); and
    when the standard deviation is a number other than zero, the Sharpe
    ratio is mean / standard deviation * sqrt(252). *)
Theorem sharpe_ratio_cases a b p :
  List.length (values a) = List.length (values b) ->
  values a <> [] ->
  exists res figs sr,
    backtest_strategy a b p = Ok (res, figs) /\
    df_strategy_returns (Performance_DataFrame res) = map Num sr /\
    ((forall x y, In x sr -> In y sr -> x == y) -> Sharpe_Ratio res = NaN) /\
    (Forall (fun x => x == 0) (values a) -> Sharpe_Ratio res = NaN) /\
    (std (map Num sr) = NaN -> Sharpe_Ratio res = NaN) /\
    (forall m sigma,
       mean (map Num sr) = Num m -> std (map Num sr) = Num sigma -> sigma <> 0%R ->
       Sharpe_Ratio res = Num (Q2R m / sigma * sqrt 252)%R).
Proof.
  intros H Hne.
  set (sr := lagged (values a) (values b)).
  assert (Hsr : sr <> []).
  { intros E. apply (f_equal (@List.length Q)) in E. unfold sr in E.
    rewrite lagged_length in E by exact H. destruct (values a); [congruence|discriminate]. }
  assert (H0 : In 0 sr).
  { unfold sr, lagged. destruct (values b) as [|r0 r'].
    - destruct (values a); simpl in H; congruence.
    - now left. }
  exists (summary (values a) (values b)). eexists. exists sr.
  split; [now apply backtest_strategy_equal|].
  cbn [summary table Performance_DataFrame df_strategy_returns Sharpe_Ratio]. fold sr.
  split; [reflexivity|]. split; [|split; [|split]].
  - intros Heq. apply sharpe_flat; [exact Hsr|].
    rewrite Forall_forall. intros x Hx. now apply Heq.
  - intros Hz. apply sharpe_flat; [exact Hsr|]. now apply lagged_zero.
  - intros ->. apply sharpe_std_nan.
  - intros m sigma -> -> Hs. now apply sharpe_std_num.
Qed.

Lemma sharpe_ratio_cases_witness :
  exists res figs,
    backtest_strategy (PyList [0; 0; 0]) (PyList [0.01; 0.02; 0.03]) false = Ok (res, figs) /\
    Sharpe_Ratio res = NaN.
Proof.
  destruct (sharpe_ratio_cases (PyList [0; 0; 0]) (PyList [0.01; 0.02; 0.03]) false)
    as (res & figs & sr & Hrun & _ & _ & Hflat & _).
  - reflexivity.
  - discriminate.
  - exists res, figs. split; [exact Hrun|]. apply Hflat. repeat constructor.
Defined.

(** ** Series of different lengths *)

(** C7 fails on the code: two lists of different lengths are not cut to
    their common prefix, the construction of the table raises ValueError;
    and two Series of different lengths give a table with the rows of the
    longer one. *)
Lemma mismatched_lengths_not_truncated :
  backtest_strategy (PyList [1; 1; 1]) (PyList [0.01; 0.02]) false = Raise ValueError /\
  exists res figs,
    backtest_strategy (Series [1; 1; 1]) (Series [0.01; 0.02]) false = Ok (res, figs) /\
    df_returns (Performance_DataFrame res) = [Num 0.01; Num 0.02; NaN] /\
    List.length (df_strategy_returns (Performance_DataFrame res)) = 3%nat.
Proof.
  split; [reflexivity|].
  eexists. eexists. split; [reflexivity|]. split; reflexivity.
Qed.

Lemma zip_with_length f xs ys :
  List.length (zip_with f xs ys) = Nat.min (List.length xs) (List.length ys).
Proof. unfold zip_with. now rewrite length_map, length_combine. Qed.

Lemma shift1_length col : List.length (shift1 col) = List.length col.
Proof.
  destruct col as [|x t]; [reflexivity|].
  unfold shift1. cbn [List.length]. f_equal.
  induction t as [|y t IH] in x |- *; [reflexivity|].
  change (List.length (x :: removelast (y :: t)) = S (List.length t)).
  cbn [List.length]. f_equal. apply IH.
Qed.

(** C7, amended. When the two inputs differ in length the run does not cut
    them to a common prefix.  If one of them is a list, the construction of
    the table raises ValueError.  If both are Series, the table has the
    rows of the longer one, the cells missing from the shorter one are NaN,
    and the run returns. *)
Theorem mismatched_lengths a b p :
  List.length (values a) <> List.length (values b) ->
  match a, b with
  | Series xs, Series ys =>
      let n := Nat.max (List.length xs) (List.length ys) in
      exists res figs,
        backtest_strategy a b p = Ok (res, figs) /\
        df_signals (Performance_DataFrame res) = reindex n xs /\
        df_returns (Performance_DataFrame res) = reindex n ys /\
        List.length (df_strategy_returns (Performance_DataFrame res)) = n
  | _, _ => backtest_strategy a b p = Raise ValueError
  end.
Proof.
  intros H. destruct a as [xs|xs], b as [ys|ys]; simpl in H.
  - unfold backtest_strategy, DataFrame.
    apply Nat.eqb_neq in H. now rewrite H.
  - unfold backtest_strategy, DataFrame.
    apply Nat.eqb_neq in H. now rewrite H.
  - unfold backtest_strategy, DataFrame.
    apply not_eq_sym, Nat.eqb_neq in H. now rewrite H.
  - cbv zeta. set (n := Nat.max (List.length xs) (List.length ys)).
    assert (Hn : n <> 0%nat) by (unfold n; lia).
    unfold backtest_strategy, DataFrame. fold n. cbn [bind fst snd].
    cbn [df_strategy_returns df_cumulative_returns].
    rewrite (strategy_returns_numbers (reindex n xs) (reindex n ys)), cumulative_returns_Num.
    set (sr := filled 0 (zip_with mul (shift1 (reindex n xs)) (reindex n ys))).
    assert (Hlen : List.length sr = n).
    { unfold sr, filled.
      rewrite length_map, zip_with_length, shift1_length, !reindex_rows. lia. }
    rewrite iloc_last_Num.
    + cbn [bind]. eexists. eexists. split; [reflexivity|].
      cbn [Performance_DataFrame df_signals df_returns df_strategy_returns].
      split; [reflexivity|]. split; [reflexivity|]. now rewrite length_map.
    + intros E. apply compound_nil in E. rewrite E in Hlen. simpl in Hlen. lia.
Qed.

Lemma mismatched_lengths_witness :
  backtest_strategy (Series [1; 0]) (PyList [0.01]) true = Raise ValueError.
Proof.
  apply (mismatched_lengths (Series [1; 0]) (PyList [0.01]) true). simpl. lia.
Defined.

(** ** Empty input *)

(** C10. On two empty inputs the table is built, with no row, and reading
    the last cumulative return raises IndexError: the run returns no
    result. *)
Theorem empty_input_raises a b p :
  values a = [] -> values b = [] ->
  DataFrame a b = Ok ([], []) /\
  iloc_last (cumulative_returns (strategy_returns [] [])) = Raise IndexError /\
  backtest_strategy a b p = Raise IndexError.
Proof.
  intros Ha Hb.
  destruct a as [xs|xs], b as [ys|ys]; simpl in Ha, Hb; subst; repeat split.
Qed.

Lemma empty_input_raises_witness :
  backtest_strategy (PyList []) (Series []) false = Raise IndexError.
Proof.
  apply (empty_input_raises (PyList []) (Series []) false); reflexivity.
Defined.

(** ** Fetching *)

(** C9. When the provider returns a table without rows, or when its call
    raises an exception of the class Exception, [fetch_stock_data] prints
    one message and returns None; no exception leaves the call. *)
Theorem fetch_absent yf_download ticker start_date end_date :
  (yf_download ticker start_date end_date = Returns []
   \/ exists e, yf_download ticker start_date end_date = Raises e
                /\ is_Exception e = true) ->
  exists msg,
    fetch_stock_data yf_download ticker start_date end_date = ([msg], Return None) /\
    (msg = ("No data for " ++ ticker)%string
     \/ exists e, msg = ("Error fetching data for " ++ ticker ++ ": " ++ exn_str e)%string).
Proof.
  intros [H|(e & H & He)]; unfold fetch_stock_data; rewrite H.
  - eexists. split; [reflexivity|]. now left.
  - rewrite He. eexists. split; [reflexivity|]. right. now exists e.
Qed.

Lemma fetch_absent_witness :
  exists msg,
    fetch_stock_data
      (fun _ _ _ => Raises {| is_Exception := true; exn_str := "timed out" |})
      "AAPL" "2020-01-01" "2020-12-31"
    = ([msg], Return None).
Proof.
  destruct (fetch_absent
              (fun _ _ _ => Raises {| is_Exception := true; exn_str := "timed out" |})
              "AAPL" "2020-01-01" "2020-12-31") as (msg & H & _).
  - right. eexists. split; reflexivity.
  - exists msg. exact H.
Defined.

(** * Further properties of the two functions *)

(** ** The run on any table *)

Lemma DataFrame_rows a b sig ret :
  DataFrame a b = Ok (sig, ret) ->
  List.length sig = Nat.max (List.length (values a)) (List.length (values b)) /\
  List.length ret = Nat.max (List.length (values a)) (List.length (values b)).
Proof.
  destruct a as [xs|xs], b as [ys|ys]; simpl.
  - destruct (Nat.eqb_spec (List.length xs) (List.length ys)) as [E|]; [|discriminate].
    intros H; inversion H; subst. rewrite !length_map. lia.
  - destruct (Nat.eqb_spec (List.length xs) (List.length ys)) as [E|]; [|discriminate].
    intros H; inversion H; subst. rewrite !length_map. lia.
  - destruct (Nat.eqb_spec (List.length ys) (List.length xs)) as [E|]; [|discriminate].
    intros H; inversion H; subst. rewrite !length_map. lia.
  - intros H; inversion H; subst. now rewrite !reindex_rows.
Qed.

Lemma numbers_of_length sig ret :
  List.length sig = List.length ret ->
  List.length (numbers_of sig ret) = List.length sig.
Proof.
  intros H. unfold numbers_of, filled.
  rewrite length_map, zip_with_length, shift1_length. lia.
Qed.

Lemma numbers_of_start sig ret : starts_at_0 (numbers_of sig ret).
Proof. destruct sig as [|s0 sig'], ret as [|r0 ret']; exact I || reflexivity. Qed.

Lemma backtest_strategy_table a b p sig ret :
  DataFrame a b = Ok (sig, ret) ->
  backtest_strategy a b p
  = match numbers_of sig ret with
    | [] => Raise IndexError
    | _ :: _ =>
        Ok (results_of sig ret,
            if p
            then plot_performance (table_of sig ret)
                   (drawdown (map Num (compound (numbers_of sig ret))))
            else [])
    end.
Proof.
  intros H. unfold backtest_strategy. rewrite H. cbn [bind fst snd].
  cbn [df_strategy_returns df_cumulative_returns].
  rewrite (strategy_returns_numbers sig ret), cumulative_returns_Num.
  fold (numbers_of sig ret).
  destruct (numbers_of sig ret) as [|x t] eqn:E; [reflexivity|].
  rewrite iloc_last_Num.
  - cbn [bind sub lift2]. unfold results_of, table_of, sum.
    rewrite dropna_Num, E. reflexivity.
  - intros N. apply compound_nil in N. discriminate.
Qed.

Lemma backtest_strategy_returns a b p res figs :
  backtest_strategy a b p = Ok (res, figs) ->
  exists sig ret,
    DataFrame a b = Ok (sig, ret) /\
    numbers_of sig ret <> [] /\
    res = results_of sig ret /\
    figs = (if p
            then plot_performance (table_of sig ret)
                   (drawdown (map Num (compound (numbers_of sig ret))))
            else []).
Proof.
  intros H. destruct (DataFrame a b) as [[sig ret]|e] eqn:ED.
  - rewrite (backtest_strategy_table a b p sig ret ED) in H.
    exists sig, ret. destruct (numbers_of sig ret) as [|x t]; [discriminate|].
    inversion H; subst. split; [reflexivity|]. split; [discriminate|]. now split.
  - unfold backtest_strategy in H. rewrite ED in H. discriminate.
Qed.

(** ** How a run ends *)

(** X3. The run returns exactly when the table can be built and has a row:
    the inputs have one length or are both Series, and are not both empty.
    It raises ValueError exactly when the lengths differ and one input is a
    list, and IndexError exactly when both inputs are empty. *)
Theorem run_outcome a b p :
  match backtest_strategy a b p with
  | Ok _ =>
      (List.length (values a) = List.length (values b) \/ both_series a b = true) /\
      (values a <> [] \/ values b <> [])
  | Raise ValueError =>
      List.length (values a) <> List.length (values b) /\ both_series a b = false
  | Raise IndexError => values a = [] /\ values b = []
  end.
Proof.
  destruct (DataFrame a b) as [[sig ret]|e] eqn:ED.
  - rewrite (backtest_strategy_table a b p sig ret ED).
    destruct (DataFrame_rows _ _ _ _ ED) as [Hs Hr].
    pose proof (numbers_of_length sig ret) as Hn. rewrite Hs, Hr in Hn.
    specialize (Hn eq_refl).
    assert (Hshape : List.length (values a) = List.length (values b)
                     \/ both_series a b = true).
    { destruct a as [xs|xs], b as [ys|ys]; simpl in ED |- *; auto;
        match type of ED with
        | context [Nat.eqb ?x ?y] => destruct (Nat.eqb_spec x y); [auto|discriminate]
        end. }
    destruct (numbers_of sig ret) as [|x t]; cbn [List.length] in Hn.
    + split; [destruct (values a)|destruct (values b)];
        cbn [List.length] in Hn; reflexivity || lia.
    + split; [exact Hshape|].
      destruct (values a); [|left; discriminate].
      destruct (values b); [cbn [List.length] in Hn; lia|right; discriminate].
  - unfold backtest_strategy. rewrite ED. cbn [bind].
    destruct a as [xs|xs], b as [ys|ys]; simpl in ED |- *;
      try discriminate;
      match type of ED with
      | context [Nat.eqb ?x ?y] => destruct (Nat.eqb_spec x y); [discriminate|]
      end; inversion ED; subst; split; auto.
Qed.

(** ** The returned table *)

Lemma map_Num_no_nan (xs : list Q) : Forall (fun c => is_nan c = false) (map Num xs).
Proof. rewrite Forall_map. now apply Forall_forall. Qed.

(** X4. In the table of every run that returns, also one built from two
    Series of different lengths, the four columns have one number of rows,
    that of the longer input and at least one; the strategy returns and the
    cumulative returns hold no NaN; and row 0 holds the strategy return 0
    and the cumulative return 1 + 0. *)
Theorem returned_table_shape a b p res figs :
  backtest_strategy a b p = Ok (res, figs) ->
  let df := Performance_DataFrame res in
  let n := Nat.max (List.length (values a)) (List.length (values b)) in
  (0 < n)%nat /\
  List.length (df_signals df) = n /\
  List.length (df_returns df) = n /\
  List.length (df_strategy_returns df) = n /\
  List.length (df_cumulative_returns df) = n /\
  Forall (fun c => is_nan c = false) (df_strategy_returns df) /\
  Forall (fun c => is_nan c = false) (df_cumulative_returns df) /\
  nth 0 (df_strategy_returns df) NaN = Num 0 /\
  nth 0 (df_cumulative_returns df) NaN = Num (1 + 0).
Proof.
  intros H. destruct (backtest_strategy_returns _ _ _ _ _ H)
    as (sig & ret & HD & Hne & -> & _).
  destruct (DataFrame_rows _ _ _ _ HD) as [Hs Hr].
  pose proof (numbers_of_length sig ret) as Hn. rewrite Hs, Hr in Hn.
  specialize (Hn eq_refl).
  pose proof (numbers_of_start sig ret) as H0.
  cbn [results_of table_of Performance_DataFrame df_signals df_returns
       df_strategy_returns df_cumulative_returns].
  cbv zeta. rewrite !length_map, compound_length.
  destruct (numbers_of sig ret) as [|x t]; [congruence|].
  simpl in H0. subst x. cbn [List.length] in Hn.
  repeat split; try assumption; try apply map_Num_no_nan; lia.
Qed.

Lemma returned_table_shape_witness :
  List.length (df_strategy_returns (table_of [Num 1; Num 1; Num 1] [Num 0.5; NaN; NaN]))
  = 3%nat.
Proof.
  apply (returned_table_shape (Series [1; 1; 1]) (Series [0.5]) false
           (results_of [Num 1; Num 1; Num 1] [Num 0.5; NaN; NaN]) []).
  reflexivity.
Defined.

(** ** Drawdown of any run *)

Lemma drawdown_list_nonpos sr :
  starts_at_0 sr -> Forall (fun d => d <= 0) (drawdown_list (compound sr)).
Proof.
  intros H0. pose proof (cummax_ge_1 sr H0) as Hge.
  rewrite Forall_forall in *. intros d Hd.
  apply (In_nth _ _ 0) in Hd. destruct Hd as (i & Hi & <-).
  rewrite drawdown_list_length in Hi. rewrite drawdown_list_nth by exact Hi.
  apply drawdown_le_0; [|apply (max_upto_ge (fun k => nth k (compound sr) 0) i)].
  unfold max_upto. rewrite <- scan_nth by exact Hi.
  apply Hge, nth_In. now rewrite scan_length.
Qed.

(** X5. Every run that returns, also one on two Series of different
    lengths, returns a maximum drawdown that is a number, never NaN, and
    that is not positive. *)
Theorem max_drawdown_nonpos a b p res figs :
  backtest_strategy a b p = Ok (res, figs) ->
  exists m, Max_Drawdown res = Num m /\ m <= 0.
Proof.
  intros H. destruct (backtest_strategy_returns _ _ _ _ _ H)
    as (sig & ret & _ & Hne & -> & _).
  cbn [results_of Max_Drawdown].
  pose proof (numbers_of_start sig ret) as H0.
  rewrite drawdown_Num_gen by exact H0.
  destruct (min_Num (drawdown_list (compound (numbers_of sig ret))))
    as (m & Hm & Hin & _).
  - intros E. apply (f_equal (@List.length Q)) in E.
    rewrite drawdown_list_length, compound_length in E.
    destruct (numbers_of sig ret); [congruence|discriminate].
  - exists m. split; [exact Hm|].
    pose proof (drawdown_list_nonpos _ H0) as Hall.
    rewrite Forall_forall in Hall. now apply Hall.
Qed.

Lemma max_drawdown_nonpos_witness :
  exists m, Max_Drawdown (results_of [Num 1; Num 1] [Num 0.5; Num (-0.5)]) = Num m
            /\ m <= 0.
Proof.
  apply (max_drawdown_nonpos (Series [1; 1]) (Series [0.5; -0.5]) false _ []).
  reflexivity.
Defined.

(** ** Cells that no statistic reads *)

Lemma combine_app_l {A B : Type} (xs : list A) : forall (ys : list B) (zs : list A),
  List.length xs = List.length ys -> combine (xs ++ zs) ys = combine xs ys.
Proof.
  induction xs as [|x t IH]; intros [|y ys] zs H; simpl in *; try discriminate.
  - now destruct zs.
  - f_equal. apply IH. lia.
Qed.

Lemma lagged_unused s r x u :
  List.length s = List.length r ->
  lagged (s ++ [x]) (u :: r) = 0 :: map (fun p => fst p * snd p) (combine s r).
Proof. intros H. unfold lagged. now rewrite combine_app_l. Qed.

(** X6. The signal of the last row and the return of row 0 enter no derived
    value: two runs that differ only in these two cells return the same
    total profit, Sharpe ratio, maximum drawdown and cumulative return, and
    the same strategy returns and cumulative returns. *)
Theorem last_signal_first_return_unused ks kr p s r x y u v :
  List.length s = List.length r ->
  exists res figs res' figs',
    backtest_strategy (as_kind ks (s ++ [x])) (as_kind kr (u :: r)) p = Ok (res, figs) /\
    backtest_strategy (as_kind ks (s ++ [y])) (as_kind kr (v :: r)) p = Ok (res', figs') /\
    Total_PnL res = Total_PnL res' /\
    Sharpe_Ratio res = Sharpe_Ratio res' /\
    Max_Drawdown res = Max_Drawdown res' /\
    Cumulative_Return res = Cumulative_Return res' /\
    df_strategy_returns (Performance_DataFrame res)
    = df_strategy_returns (Performance_DataFrame res') /\
    df_cumulative_returns (Performance_DataFrame res)
    = df_cumulative_returns (Performance_DataFrame res').
Proof.
  intros H.
  assert (Hlen : forall z w, List.length (values (as_kind ks (s ++ [z])))
                             = List.length (values (as_kind kr (w :: r)))).
  { intros z w. rewrite !values_as_kind, length_app. simpl. lia. }
  assert (Hne : forall z, values (as_kind ks (s ++ [z])) <> []).
  { intros z. rewrite values_as_kind. now destruct s. }
  eexists. eexists. eexists. eexists.
  split; [apply backtest_strategy_equal; [apply Hlen|apply Hne]|].
  split; [apply backtest_strategy_equal; [apply Hlen|apply Hne]|].
  rewrite !values_as_kind.
  cbn [summary table Performance_DataFrame Total_PnL Sharpe_Ratio Max_Drawdown
       Cumulative_Return df_strategy_returns df_cumulative_returns].
  rewrite !(lagged_unused s r) by exact H. repeat split.
Qed.

Lemma last_signal_first_return_unused_witness :
  exists res figs res' figs',
    backtest_strategy (PyList ([1; 0] ++ [1])) (PyList [0.01; 0.02; 0.03]) false
    = Ok (res, figs) /\
    backtest_strategy (PyList ([1; 0] ++ [-1])) (PyList [0.5; 0.02; 0.03]) false
    = Ok (res', figs') /\
    Total_PnL res = Total_PnL res' /\
    Sharpe_Ratio res = Sharpe_Ratio res'.
Proof.
  destruct (last_signal_first_return_unused false false false
              [1; 0] [0.02; 0.03] 1 (-1) 0.01 0.5)
    as (res & figs & res' & figs' & H1 & H2 & Hp & Hs & _); [reflexivity|].
  exists res, figs, res', figs'. repeat split; assumption.
Defined.

(** ** A strategy without a losing row *)

Lemma numbers_nonneg (sr : list Q) :
  Forall (fun c => exists x, c = Num x /\ 0 <= x) (map Num sr) -> Forall (Qle 0) sr.
Proof.
  rewrite Forall_map. apply Forall_impl. intros q (x & E & Hx).
  inversion E; subst. exact Hx.
Qed.

Lemma nth_map_plus1 sr k :
  (k < List.length sr)%nat -> nth k (map (Qplus 1) sr) 0 = 1 + nth k sr 0.
Proof.
  intros H. rewrite (nth_indep _ 0 (1 + 0)) by (now rewrite length_map).
  apply (map_nth (Qplus 1)).
Qed.

Lemma compound_step sr i :
  (S i < List.length sr)%nat ->
  nth (S i) (compound sr) 0 = nth i (compound sr) 0 * (1 + nth (S i) sr 0).
Proof.
  intros H. unfold compound.
  rewrite scan_nth_S by (now rewrite length_map).
  now rewrite nth_map_plus1.
Qed.

Lemma compound_pos sr i :
  Forall (Qle 0) sr -> (i < List.length sr)%nat -> 0 < nth i (compound sr) 0.
Proof.
  intros Hpos Hi. rewrite compound_nth by exact Hi. apply prod_upto_pos.
  intros k Hk. rewrite Forall_forall in Hpos.
  assert (0 <= nth k sr 0) by (apply Hpos, nth_In; lia). lra.
Qed.

Lemma compound_running_max sr i :
  Forall (Qle 0) sr -> (i < List.length sr)%nat ->
  max_upto (fun k => nth k (compound sr) 0) i == nth i (compound sr) 0.
Proof.
  intros Hpos. induction i as [|i IH]; intros Hi; [reflexivity|].
  unfold max_upto in *. cbn [fold_upto]. rewrite Q.max_r; [reflexivity|].
  rewrite IH by lia. rewrite compound_step by exact Hi.
  pose proof (compound_pos sr i Hpos ltac:(lia)) as Hc.
  assert (Hx : 0 <= nth (S i) sr 0).
  { rewrite Forall_forall in Hpos. apply Hpos, nth_In. exact Hi. }
  set (c := nth i (compound sr) 0) in *. set (x := nth (S i) sr 0) in *.
  clearbody c x.
  assert (0 <= c * x) by (apply Qmult_le_0_compat; lra). lra.
Qed.

Lemma drawdown_list_flat sr :
  Forall (Qle 0) sr -> Forall (fun d => d == 0) (drawdown_list (compound sr)).
Proof.
  intros Hpos. rewrite Forall_forall. intros d Hd.
  apply (In_nth _ _ 0) in Hd. destruct Hd as (i & Hi & <-).
  rewrite drawdown_list_length, compound_length in Hi.
  rewrite drawdown_list_nth by (now rewrite compound_length).
  rewrite (compound_running_max sr i Hpos Hi).
  unfold Qdiv. ring.
Qed.

(** X9. When no strategy return of a returning run is negative, the
    cumulative return never falls below its running maximum, which in every
    row is the cumulative return of that row, and the maximum drawdown
    returned is 0. *)
Theorem no_loss_no_drawdown a b p res figs :
  backtest_strategy a b p = Ok (res, figs) ->
  Forall (fun c => exists x, c = Num x /\ 0 <= x)
         (df_strategy_returns (Performance_DataFrame res)) ->
  (forall i,
     (i < List.length (df_cumulative_returns (Performance_DataFrame res)))%nat ->
     exists c m,
       nth i (df_cumulative_returns (Performance_DataFrame res)) NaN = Num c /\
       nth i (cummax (df_cumulative_returns (Performance_DataFrame res))) NaN = Num m /\
       m == c) /\
  ceq (Max_Drawdown res) (Num 0).
Proof.
  intros H Hpos. destruct (backtest_strategy_returns _ _ _ _ _ H)
    as (sig & ret & _ & Hne & -> & _).
  cbn [results_of table_of Performance_DataFrame df_strategy_returns
       df_cumulative_returns Max_Drawdown] in *.
  apply numbers_nonneg in Hpos. split.
  - intros i Hi. rewrite length_map, compound_length in Hi.
    exists (nth i (compound (numbers_of sig ret)) 0),
           (max_upto (fun k => nth k (compound (numbers_of sig ret)) 0) i).
    split; [apply nth_Num; now rewrite compound_length|]. split.
    + unfold cummax, max_upto. rewrite cum_from_Num.
      rewrite nth_Num by (now rewrite scan_length, compound_length).
      now rewrite scan_nth by (now rewrite compound_length).
    + now apply compound_running_max.
  - rewrite drawdown_Num_gen by apply numbers_of_start.
    destruct (min_Num (drawdown_list (compound (numbers_of sig ret))))
      as (m & -> & Hin & _).
    + intros E. apply (f_equal (@List.length Q)) in E.
      rewrite drawdown_list_length, compound_length in E.
      destruct (numbers_of sig ret); [congruence|discriminate].
    + pose proof (drawdown_list_flat _ Hpos) as Hall.
      rewrite Forall_forall in Hall. exact (Hall m Hin).
Qed.

Lemma no_loss_no_drawdown_witness :
  ceq (Max_Drawdown (summary [1; 1; 1] [0; 0.5; 0.25])) (Num 0).
Proof.
  apply (no_loss_no_drawdown (PyList [1; 1; 1]) (PyList [0; 0.5; 0.25]) false _ []).
  - reflexivity.
  - repeat constructor; eexists; (split; [reflexivity|]); vm_compute; discriminate.
Defined.

(** ** The sign of the Sharpe ratio *)

Lemma sharpe_num_inv mc sc x :
  sharpe mc sc = Num x ->
  exists m sigma,
    mc = Num m /\ sc = Num sigma /\ sigma <> 0%R /\
    x = (Q2R m / sigma * sqrt 252)%R.
Proof.
  unfold sharpe, ne0, to_R, Rdiv_cell.
  destruct sc as [|sigma]; [destruct mc; discriminate|].
  destruct (Req_dec_T sigma 0) as [E|N]; [discriminate|].
  destruct mc as [|m]; [discriminate|].
  cbn [lift2]. intros H. inversion H. now exists m, sigma.
Qed.

Lemma std_nonneg col sigma : std col = Num sigma -> (0 <= sigma)%R.
Proof.
  unfold std. destruct (var col) as [|v]; [discriminate|].
  intros H. inversion H. apply sqrt_pos.
Qed.

Lemma Qnat_pos n : (0 < n)%nat -> 0 < Qnat n.
Proof.
  intros H. unfold Qnat. rewrite <- (Zlt_Qlt 0). lia.
Qed.

Lemma mean_Num_inv (sr : list Q) m :
  mean (map Num sr) = Num m ->
  sr <> [] /\ m = total sr / Qnat (List.length sr).
Proof.
  unfold mean, sum. rewrite count_Num, dropna_Num.
  destruct sr as [|x t]; [discriminate|]. intros H. inversion H.
  split; [discriminate|reflexivity].
Qed.

Lemma sign_of_ratio t q : 0 < q -> (0 < t / q <-> 0 < t) /\ (t / q < 0 <-> t < 0).
Proof.
  intros Hq. unfold Qdiv. pose proof (Qinv_lt_0_compat q Hq) as Hi.
  assert (E : t == (t * / q) * q) by (field; lra).
  set (u := t * / q) in *. clearbody u. split; split; intros H; nra.
Qed.

(** X10. When a run returns a Sharpe ratio that is a number, its sign is
    that of the total profit: it is positive exactly when the total profit
    is, and negative exactly when the total profit is. *)
Theorem sharpe_sign a b p res figs x :
  backtest_strategy a b p = Ok (res, figs) ->
  Sharpe_Ratio res = Num x ->
  ((0 < x)%R <-> 0 < Total_PnL res) /\ ((x < 0)%R <-> Total_PnL res < 0).
Proof.
  intros H Hx. destruct (backtest_strategy_returns _ _ _ _ _ H)
    as (sig & ret & _ & Hne & -> & _).
  cbn [results_of Sharpe_Ratio Total_PnL] in *.
  set (sr := numbers_of sig ret) in *.
  destruct (sharpe_num_inv _ _ _ Hx) as (m & sigma & Hm & Hs & Hs0 & ->).
  pose proof (std_nonneg _ _ Hs) as Hpos.
  destruct (mean_Num_inv _ _ Hm) as [_ ->].
  assert (Hn : 0 < Qnat (List.length sr)).
  { apply Qnat_pos. destruct sr; [congruence|simpl; lia]. }
  destruct (sign_of_ratio (total sr) _ Hn) as [Hp Hq].
  set (mu := total sr / Qnat (List.length sr)) in *.
  assert (Hk : (0 < / sigma * sqrt 252)%R).
  { apply Rmult_lt_0_compat; [apply Rinv_0_lt_compat; lra|].
    apply sqrt_lt_R0. lra. }
  assert (E : (Q2R mu / sigma * sqrt 252 = Q2R mu * (/ sigma * sqrt 252))%R)
    by (unfold Rdiv; ring).
  rewrite E. set (K := (/ sigma * sqrt 252)%R) in *. clearbody K.
  rewrite <- Hp, <- Hq. split; split; intros Hlt.
  - apply Rlt_Qlt. rewrite Q2R_zero. nra.
  - apply Qlt_Rlt in Hlt. rewrite Q2R_zero in Hlt. nra.
  - apply Rlt_Qlt. rewrite Q2R_zero. nra.
  - apply Qlt_Rlt in Hlt. rewrite Q2R_zero in Hlt. nra.
Qed.

Lemma sharpe_sign_witness :
  exists x,
    Sharpe_Ratio (summary [1; 1] [0.01; 0.01]) = Num x /\
    ((0 < x)%R <-> 0 < Total_PnL (summary [1; 1] [0.01; 0.01])).
Proof.
  assert (Hs : exists x, Sharpe_Ratio (summary [1; 1] [0.01; 0.01]) = Num x).
  { cbn [summary Sharpe_Ratio]. unfold std.
    remember (var (map Num (lagged [1; 1] [0.01; 0.01]))) as v eqn:Ev.
    remember (mean (map Num (lagged [1; 1] [0.01; 0.01]))) as m eqn:Em.
    vm_compute in Ev, Em. subst v m. eexists. apply sharpe_std_num.
    apply Rgt_not_eq, sqrt_lt_R0. rewrite <- Q2R_zero. apply Qlt_Rlt. reflexivity. }
  destruct Hs as [x Hs]. exists x. split; [exact Hs|].
  apply (sharpe_sign (PyList [1; 1]) (PyList [0.01; 0.01]) false _ [] x);
    [reflexivity|exact Hs].
Defined.

(** ** Outcomes of the fetch *)

(** X11. A table returned by [fetch_stock_data] is the provider's table
    unchanged, it has at least one row, and nothing was printed. *)
Theorem fetch_present yf_download ticker start_date end_date out data :
  fetch_stock_data yf_download ticker start_date end_date = (out, Return (Some data)) ->
  yf_download ticker start_date end_date = Returns data /\ data <> [] /\ out = [].
Proof.
  unfold fetch_stock_data.
  destruct (yf_download ticker start_date end_date) as [d|e].
  - destruct d as [|r d']; cbn [List.length Nat.eqb]; intros H; inversion H; subst.
    split; [reflexivity|]. split; [discriminate|reflexivity].
  - destruct (is_Exception e); intros H; inversion H.
Qed.

Lemma fetch_present_witness :
  [("2020-01-02"%string, 1, 2, 0.5, 1.5, 100)] <> ([] : list row).
Proof.
  apply (fetch_present
           (fun _ _ _ => Returns [("2020-01-02"%string, 1, 2, 0.5, 1.5, 100)])
           "AAPL" "2020-01-01" "2020-12-31" []
           [("2020-01-02"%string, 1, 2, 0.5, 1.5, 100)]).
  reflexivity.
Defined.

(** X12. [fetch_stock_data] lets an exception leave the call exactly when
    the provider raised one that is not of the class Exception (such as
    KeyboardInterrupt); it is then the provider's exception, and nothing
    was printed. *)
Theorem fetch_propagates yf_download ticker start_date end_date out e :
  fetch_stock_data yf_download ticker start_date end_date = (out, Propagate e) <->
  yf_download ticker start_date end_date = Raises e /\ is_Exception e = false /\ out = [].
Proof.
  unfold fetch_stock_data. split.
  - destruct (yf_download ticker start_date end_date) as [d|e'].
    + destruct (Nat.eqb (List.length d) 0); intros H; inversion H.
    + destruct (is_Exception e') eqn:E; intros H; inversion H; subst. now split.
  - intros (-> & -> & ->). reflexivity.
Qed.

(** X13. [fetch_stock_data] prints one message exactly when it returns None
    and prints nothing in every other case. *)
Theorem fetch_message_iff_absent yf_download ticker start_date end_date :
  match fetch_stock_data yf_download ticker start_date end_date with
  | (out, Return None) => exists msg, out = [msg]
  | (out, _) => out = []
  end.
Proof.
  unfold fetch_stock_data.
  destruct (yf_download ticker start_date end_date) as [d|e].
  - destruct (Nat.eqb (List.length d) 0); [eexists|]; reflexivity.
  - destruct (is_Exception e); [eexists|]; reflexivity.
Qed.

(** ** Two Series of any lengths *)

Lemma reindex_S n ys :
  reindex (S n) ys
  = match ys with [] => NaN | y :: _ => Num y end :: reindex n (tl ys).
Proof. now destruct ys. Qed.

Lemma removelast_reindex n : forall xs, removelast (reindex (S n) xs) = reindex n xs.
Proof.
  induction n as [|n IH]; intros xs.
  - now destruct xs.
  - rewrite (reindex_S (S n) xs), (reindex_S n xs).
    rewrite <- IH. rewrite (reindex_S n (tl xs)). reflexivity.
Qed.

Lemma combine_nil_r {A B : Type} (xs : list A) : combine xs ([] : list B) = [].
Proof. now destruct xs. Qed.

Lemma zip_reindex n : forall xs zs,
  (List.length (combine xs zs) <= n)%nat ->
  filled 0 (zip_with mul (reindex n xs) (reindex n zs))
  = map (fun p => fst p * snd p) (combine xs zs)
    ++ repeat 0 (n - List.length (combine xs zs)).
Proof.
  unfold filled, zip_with.
  induction n as [|n IH]; intros xs zs H.
  - destruct (combine xs zs); simpl in *; [reflexivity|lia].
  - destruct xs as [|x xs'].
    + specialize (IH [] (tl zs)). cbn [combine List.length] in IH.
      rewrite Nat.sub_0_r in IH. destruct zs as [|z zs']; cbn; f_equal; apply IH; lia.
    + destruct zs as [|z zs'].
      * specialize (IH xs' []). rewrite combine_nil_r in IH.
        cbn [List.length map app] in IH. rewrite Nat.sub_0_r in IH.
        cbn. f_equal. apply IH. lia.
      * cbn in H |- *. f_equal. apply IH. lia.
Qed.

Lemma numbers_of_reindex n xs ys :
  numbers_of (reindex (S n) xs) (reindex (S n) ys)
  = 0 :: filled 0 (zip_with mul (reindex n xs) (reindex n (tl ys))).
Proof.
  unfold numbers_of. rewrite <- (removelast_reindex n xs).
  rewrite (reindex_S n ys). remember (reindex (S n) xs) as sig eqn:E.
  destruct sig as [|c sig']; [now destruct xs|]. reflexivity.
Qed.

Lemma qsum_app xs ys : qsum (xs ++ ys) == qsum xs + qsum ys.
Proof.
  induction xs as [|x t IH]; simpl; [now rewrite Qplus_0_l|].
  rewrite IH. ring.
Qed.

Lemma qsum_zeros k : qsum (repeat 0 k) == 0.
Proof. induction k as [|k IH]; simpl; [reflexivity|]. rewrite IH. reflexivity. Qed.

Lemma qprod_app xs ys : qprod (xs ++ ys) == qprod xs * qprod ys.
Proof.
  induction xs as [|x t IH]; simpl; [now rewrite Qmult_1_l|].
  rewrite IH. ring.
Qed.

Lemma qprod_ones k : qprod (map (Qplus 1) (repeat 0 k)) == 1.
Proof. induction k as [|k IH]; simpl; [reflexivity|]. rewrite IH. reflexivity. Qed.

(** X14. Two Series of any lengths, not both empty, give a run that returns.
    Row 0 has the strategy return 0, each later row where the previous
    signal and the return both exist has their product, and every other
    row has 0; so the total profit is the sum of the products
    signal[i] * return[i+1] over the rows where both exist and the
    cumulative return is the product of 1 + these, less 1.  A return one
    row beyond the last signal therefore still counts. *)
Theorem series_of_any_lengths xs ys p :
  xs <> [] \/ ys <> [] ->
  exists res figs k,
    backtest_strategy (Series xs) (Series ys) p = Ok (res, figs) /\
    df_strategy_returns (Performance_DataFrame res)
    = map Num (0 :: map (fun q => fst q * snd q) (combine xs (tl ys)) ++ repeat 0 k) /\
    Total_PnL res == qsum (map (fun q => fst q * snd q) (combine xs (tl ys))) /\
    ceq (Cumulative_Return res)
        (Num (qprod (map (Qplus 1) (map (fun q => fst q * snd q) (combine xs (tl ys)))) - 1)).
Proof.
  intros Hne.
  set (n := Nat.max (List.length xs) (List.length ys)).
  assert (Hn : exists n', n = S n').
  { destruct n as [|n'] eqn:E; [|now exists n'].
    unfold n in E. destruct Hne as [N|N]; [destruct xs|destruct ys];
      try congruence; cbn [List.length] in E; lia. }
  destruct Hn as [n' Hn'].
  assert (HD : DataFrame (Series xs) (Series ys)
               = Ok (reindex (S n') xs, reindex (S n') ys)).
  { unfold DataFrame. fold n. now rewrite Hn'. }
  assert (Hc : (List.length (combine xs (tl ys)) <= n')%nat).
  { rewrite length_combine. destruct ys as [|y ys']; simpl in *; lia. }
  pose proof (numbers_of_reindex n' xs ys) as Hsr.
  rewrite (zip_reindex n' xs (tl ys) Hc) in Hsr.
  set (prods := map (fun q => fst q * snd q) (combine xs (tl ys))) in *.
  set (k := (n' - List.length (combine xs (tl ys)))%nat) in *.
  eexists. eexists. exists k.
  rewrite (backtest_strategy_table _ _ p _ _ HD), Hsr.
  split; [reflexivity|].
  cbn [results_of table_of Performance_DataFrame df_strategy_returns
       Total_PnL Cumulative_Return].
  rewrite Hsr. split; [reflexivity|]. split.
  - rewrite total_qsum. cbn [qsum fold_right]. fold (qsum (prods ++ repeat 0 k)).
    rewrite qsum_app, qsum_zeros. ring.
  - change (last (compound (0 :: prods ++ repeat 0 k)) 0 - 1
            == qprod (map (Qplus 1) prods) - 1).
    rewrite last_compound by discriminate.
    cbn [map qprod fold_right]. fold (qprod (map (Qplus 1) (prods ++ repeat 0 k))).
    rewrite map_app, qprod_app, qprod_ones. ring.
Qed.

Lemma series_of_any_lengths_witness :
  exists res figs,
    backtest_strategy (Series [1]) (Series [0.01; 0.5; 0.25]) false = Ok (res, figs) /\
    Total_PnL res == 0.5.
Proof.
  destruct (series_of_any_lengths [1] [0.01; 0.5; 0.25] false)
    as (res & figs & k & Hrun & _ & Hpnl & _); [left; discriminate|].
  exists res, figs. split; [exact Hrun|]. rewrite Hpnl. reflexivity.
Defined.

(** ** The reversed position *)

Lemma values_scale k a : values (scale k a) = map (Qmult k) (values a).
Proof. now destruct a. Qed.

Lemma mean_Num sr :
  mean (map Num sr) = match sr with [] => NaN | _ :: _ => Num (avgQ sr) end.
Proof.
  unfold mean, sum, avgQ. rewrite count_Num, dropna_Num. now destruct sr.
Qed.

Lemma var_Num sr :
  var (map Num sr)
  = match sr with [] | [_] => NaN | _ :: _ :: _ => Num (varQ sr) end.
Proof.
  unfold var, sum, varQ, avgQ. rewrite count_Num, dropna_Num.
  now destruct sr as [|x [|y t]].
Qed.

Lemma qsum_negated sr' sr :
  Forall2 (fun x' x => x' == - x) sr' sr -> qsum sr' == - qsum sr.
Proof.
  induction 1 as [|x' x t' t Hx _ IH]; simpl; [reflexivity|].
  rewrite Hx, IH. ring.
Qed.

Lemma qsum_dev_negated a' a sr' sr :
  a' == - a ->
  Forall2 (fun x' x => x' == - x) sr' sr ->
  qsum (map (fun x => (a' - x) * (a' - x)) sr')
  == qsum (map (fun x => (a - x) * (a - x)) sr).
Proof.
  intros Ha. induction 1 as [|x' x t' t Hx _ IH]; simpl; [reflexivity|].
  rewrite Hx, IH, Ha. ring.
Qed.

Lemma avgQ_negated sr' sr :
  sr <> [] ->
  Forall2 (fun x' x => x' == - x) sr' sr -> avgQ sr' == - avgQ sr.
Proof.
  intros Hne H. unfold avgQ. rewrite (Forall2_length H), !total_qsum.
  rewrite (qsum_negated _ _ H). field.
  assert (0 < Qnat (List.length sr)) by (apply Qnat_pos; destruct sr; [congruence|simpl; lia]).
  lra.
Qed.

Lemma varQ_negated sr' sr :
  (2 <= List.length sr)%nat ->
  Forall2 (fun x' x => x' == - x) sr' sr -> varQ sr' == varQ sr.
Proof.
  intros Hlen H. unfold varQ. rewrite (Forall2_length H), !total_qsum.
  rewrite (qsum_dev_negated (avgQ sr') (avgQ sr) sr' sr).
  - reflexivity.
  - apply avgQ_negated; [destruct sr; [simpl in Hlen; lia|discriminate]|exact H].
  - exact H.
Qed.

Lemma pairs_negated s : forall r,
  Forall2 (fun x' x => x' == - x)
    (map (fun p => fst p * snd p) (combine (map (Qmult (-1)) s) r))
    (map (fun p => fst p * snd p) (combine s r)).
Proof.
  induction s as [|x t IH]; intros [|y r]; simpl; constructor; [ring|apply IH].
Qed.

Lemma lagged_negated s r :
  Forall2 (fun x' x => x' == - x) (lagged (map (Qmult (-1)) s) r) (lagged s r).
Proof.
  destruct r as [|r0 r']; simpl; constructor; [reflexivity|apply pairs_negated].
Qed.

Lemma sharpe_negated sr' sr :
  Forall2 (fun x' x => x' == - x) sr' sr ->
  sharpe (mean (map Num sr')) (std (map Num sr'))
  = match sharpe (mean (map Num sr)) (std (map Num sr)) with
    | NaN => NaN
    | Num x => Num (- x)%R
    end.
Proof.
  intros H. pose proof (Forall2_length H) as Hlen.
  unfold std. rewrite !mean_Num, !var_Num.
  destruct sr as [|x [|y t]], sr' as [|x' [|y' t']]; try discriminate.
  - reflexivity.
  - rewrite !sharpe_std_nan. reflexivity.
  - set (l := x :: y :: t) in *. set (l' := x' :: y' :: t') in *.
    assert (Hm : Q2R (avgQ l') = (- Q2R (avgQ l))%R).
    { rewrite <- Q2R_opp. apply Qeq_eqR, avgQ_negated; [discriminate|exact H]. }
    assert (Hv : Q2R (varQ l') = Q2R (varQ l)).
    { apply Qeq_eqR, varQ_negated; [simpl; lia|exact H]. }
    rewrite Hv. set (sigma := sqrt (Q2R (varQ l))) in *.
    destruct (Req_dec_T sigma 0) as [E|N].
    + rewrite E, !sharpe_std_zero. reflexivity.
    + rewrite !(sharpe_std_num _ _ N). f_equal. rewrite Hm. field. exact N.
Qed.

(** X7. Reversing the position reverses the result: when every signal is
    multiplied by -1, the run returns the opposite total profit and the
    opposite Sharpe ratio (NaN stays NaN). *)
Theorem reversed_position a b p :
  List.length (values a) = List.length (values b) ->
  values a <> [] ->
  exists res figs res' figs',
    backtest_strategy a b p = Ok (res, figs) /\
    backtest_strategy (scale (-1) a) b p = Ok (res', figs') /\
    Total_PnL res' == - Total_PnL res /\
    Sharpe_Ratio res'
    = match Sharpe_Ratio res with NaN => NaN | Num x => Num (- x)%R end.
Proof.
  intros H Hne. eexists. eexists. eexists. eexists.
  split; [now apply backtest_strategy_equal|]. split.
  - apply backtest_strategy_equal; rewrite values_scale.
    + now rewrite length_map.
    + destruct (values a); [congruence|discriminate].
  - rewrite values_scale. cbn [summary Total_PnL Sharpe_Ratio]. split.
    + rewrite !total_qsum. apply qsum_negated, lagged_negated.
    + apply sharpe_negated, lagged_negated.
Qed.

Lemma reversed_position_witness :
  exists res figs res' figs',
    backtest_strategy (PyList [1; 1; 0]) (PyList [0.01; 0.02; 0.03]) false = Ok (res, figs) /\
    backtest_strategy (scale (-1) (PyList [1; 1; 0])) (PyList [0.01; 0.02; 0.03]) false
    = Ok (res', figs') /\
    Total_PnL res' == - Total_PnL res.
Proof.
  destruct (reversed_position (PyList [1; 1; 0]) (PyList [0.01; 0.02; 0.03]) false)
    as (res & figs & res' & figs' & H1 & H2 & H3 & _); [reflexivity|discriminate|].
  exists res, figs, res', figs'. repeat split; assumption.
Defined.

(** ** A single row *)

(** X17. A run on a single row, whatever its signal and its return and in
    either form of input, returns: the total profit is 0, the cumulative
    return is 0, the maximum drawdown is 0 and the Sharpe ratio is NaN,
    because the standard deviation of one value is NaN. *)
Theorem single_row_run ks kr p x y :
  exists res figs,
    backtest_strategy (as_kind ks [x]) (as_kind kr [y]) p = Ok (res, figs) /\
    df_strategy_returns (Performance_DataFrame res) = [Num 0] /\
    Total_PnL res == 0 /\
    ceq (Cumulative_Return res) (Num 0) /\
    ceq (Max_Drawdown res) (Num 0) /\
    Sharpe_Ratio res = NaN.
Proof.
  eexists. eexists. split.
  - apply backtest_strategy_equal; rewrite !values_as_kind; [reflexivity|discriminate].
  - rewrite !values_as_kind.
    cbn [summary table Performance_DataFrame df_strategy_returns Total_PnL
         Cumulative_Return Max_Drawdown Sharpe_Ratio lagged].
    split; [reflexivity|]. split; [reflexivity|]. split; [reflexivity|].
    split; [reflexivity|]. unfold std. rewrite var_single. apply sharpe_std_nan.
Qed.
